(** * A shallow embedding of the wiki server (wiki.go)

    The development follows the layout of the program:
    - the two compiled patterns [validPath] and [interPageLink] (package
      regexp), as regular-expression syntax with a denotational matching
      relation, and the executable matchers the handlers run;
    - the page store: [Page], [Page.save], [loadPage] over a file system
      that maps file names to byte contents;
    - the response writer and the helpers of net/http the handlers call
      ([http.Error], [http.NotFound], [http.Redirect]);
    - the four handlers, [makeHandler], and the mux set up by [main].

    Go strings are byte sequences and are modelled by [string]; byte slices
    are [list byte]; the conversions [[]byte(s)] and [string(b)] are
    [list_byte_of_string] and [string_of_list_byte]. *)

From Stdlib Require Import Strings.String Strings.Ascii Strings.Byte List Lia NArith.
From stdpp Require Import gmap strings list fin_maps.
From Equations Require Import Equations.
From Equations.Prop Require Import Logic.
Import ListNotations.
Local Open Scope string_scope.
Local Open Scope list_scope.

(* stdpp keeps [append] folded; the proofs below compute with it. *)
#[local] Arguments append !_ _ / : simpl nomatch.

(** ** Bytes and strings *)

(** [[]byte(s)] *)
Definition bytes (s : string) : list byte := list_byte_of_string s.

(** [string(b)] *)
Definition gostring (b : list byte) : string := string_of_list_byte b.

(** [strings.HasPrefix] on byte sequences, returning the remainder. *)
Fixpoint trimPrefix (p s : list byte) : option (list byte) :=
  match p with
  | [] => Some s
  | c :: p' =>
      match s with
      | [] => None
      | d :: s' => if Byte.eqb c d then trimPrefix p' s' else None
      end
  end.

(** The longest prefix of [s] whose bytes satisfy [f], and what follows. *)
Fixpoint span (f : byte -> bool) (s : list byte) : list byte * list byte :=
  match s with
  | [] => ([], [])
  | b :: t =>
      if f b then let '(u, v) := span f t in (b :: u, v)
      else ([], s)
  end.

(** ** Regular expressions

    The operators of package regexp that the two patterns of the program
    use.  Both patterns are made of ASCII literals and ASCII classes, so
    matching UTF-8 text rune by rune and matching it byte by byte agree:
    every byte of a multi-byte rune is at least 0x80 and matches nothing. *)

Inductive regexp : Type :=
| Lit (b : byte)                            (* a literal character *)
| CharClass (ranges : list (byte * byte))   (* [a-zA-Z0-9] *)
| Cat (r1 r2 : regexp)                      (* r1r2 *)
| Alt (r1 r2 : regexp)                      (* r1|r2 *)
| Star (r : regexp)                         (* r* *)
| Plus (r : regexp)                         (* r+ *)
| Group (r : regexp).                       (* (r), a capturing group *)

Definition in_range (b : byte) (rg : byte * byte) : bool :=
  (Byte.to_N (fst rg) <=? Byte.to_N b)%N && (Byte.to_N b <=? Byte.to_N (snd rg))%N.

Definition in_class (ranges : list (byte * byte)) (b : byte) : bool :=
  existsb (in_range b) ranges.

(** The language of a regular expression. *)
Inductive matches : regexp -> list byte -> Prop :=
| MLit b : matches (Lit b) [b]
| MClass rs b : in_class rs b = true -> matches (CharClass rs) [b]
| MCat r1 r2 s1 s2 :
    matches r1 s1 -> matches r2 s2 -> matches (Cat r1 r2) (s1 ++ s2)
| MAltL r1 r2 s : matches r1 s -> matches (Alt r1 r2) s
| MAltR r1 r2 s : matches r2 s -> matches (Alt r1 r2) s
| MStar0 r : matches (Star r) []
| MStarS r s1 s2 :
    matches r s1 -> matches (Star r) s2 -> matches (Star r) (s1 ++ s2)
| MPlus r s1 s2 :
    matches r s1 -> matches (Star r) s2 -> matches (Plus r) (s1 ++ s2)
| MGroup r s : matches r s -> matches (Group r) s.

(** A literal word. *)
Fixpoint word (l : list byte) : regexp :=
  match l with
  | [] => Star (CharClass [])
  | [b] => Lit b
  | b :: l' => Cat (Lit b) (word l')
  end.

(** [[a-zA-Z0-9]] *)
Definition alnumClass : regexp :=
  CharClass [("a"%byte, "z"%byte); ("A"%byte, "Z"%byte); ("0"%byte, "9"%byte)].

Definition alnum (b : byte) : bool :=
  in_class [("a"%byte, "z"%byte); ("A"%byte, "Z"%byte); ("0"%byte, "9"%byte)] b.

(** *** validPath

    [regexp.MustCompile("^/(edit|save|view|delete)/([a-zA-Z0-9]+)$")].
    The pattern is anchored at both ends ([$] without the multi-line flag
    is the end of the text), so a match is a match of the whole path. *)

Definition validPath_ops : list string := ["edit"; "save"; "view"; "delete"].

Definition validPath_op : regexp :=
  Alt (Alt (Alt (word (bytes "edit")) (word (bytes "save"))) (word (bytes "view")))
      (word (bytes "delete")).

Definition validPath_title : regexp := Plus alnumClass.

Definition validPath : regexp :=
  Cat (Lit "/"%byte)
      (Cat (Group validPath_op) (Cat (Lit "/"%byte) (Group validPath_title))).

(** The first alternative of [ops], in order, that is a prefix of [s]. *)
Fixpoint firstAlt (ops : list string) (s : list byte) : option (string * list byte) :=
  match ops with
  | [] => None
  | op :: ops' =>
      match trimPrefix (bytes op) s with
      | Some rest => Some (op, rest)
      | None => firstAlt ops' s
      end
  end.

(** [validPath.FindStringSubmatch(path)]: [None] is Go's nil; otherwise
    the list holds m[0] (the whole match), m[1] (the operation) and m[2]
    (the title). *)
Definition FindStringSubmatch (path : string) : option (list string) :=
  match trimPrefix (bytes "/") (bytes path) with
  | None => None
  | Some s1 =>
      match firstAlt validPath_ops s1 with
      | None => None
      | Some (op, s2) =>
          match trimPrefix (bytes "/") s2 with
          | None => None
          | Some title =>
              if negb (Nat.eqb (length title) 0) && forallb alnum title
              then Some [path; op; gostring title]
              else None
          end
      end
  end.

(** *** interPageLink

    The compiled link pattern: an escaped opening bracket, a capturing
    group of zero or more characters of [[a-zA-Z0-9]], an escaped closing
    bracket. *)

Definition interPageLink : regexp :=
  Cat (Lit "["%byte) (Cat (Group (Star alnumClass)) (Lit "]"%byte)).

(** The match of [interPageLink] that starts at the first byte of [s], if
    there is one, and the text after it. *)
Definition interPageLink_matchAt (s : list byte) : option (list byte * list byte) :=
  match s with
  | [] => None
  | b :: t =>
      if Byte.eqb b "["%byte then
        let '(name, rest) := span alnum t in
        match rest with
        | [] => None
        | c :: rest' =>
            if Byte.eqb c "]"%byte
            then Some (b :: name ++ [c], rest')
            else None
        end
      else None
  end.

(** [interPageLink.ReplaceAllFunc(src, repl)]: the leftmost match is
    replaced by [repl] of the matched text, the scan resumes after it, and
    unmatched bytes are copied.  (No match of [interPageLink] is empty, so
    the rule of package regexp about empty matches never applies.) *)
Equations ReplaceAllFunc (repl : list byte -> list byte) (src : list byte) : list byte
  by wf (length src) lt :=
  ReplaceAllFunc repl [] := [];
  ReplaceAllFunc repl (b :: t) with inspect (interPageLink_matchAt (b :: t)) := {
    | exist _ (Some (m, rest)) H := repl m ++ ReplaceAllFunc repl rest;
    | exist _ None _ := b :: ReplaceAllFunc repl t }.
Next Obligation.
  assert (L : forall s, length (snd (span alnum s)) <= length s).
  { induction s as [|c s IH]; simpl; [lia|].
    destruct (alnum c); simpl; [|lia].
    destruct (span alnum s); simpl in *; lia. }
  specialize (L t).
  destruct (Byte.eqb b "["%byte); [|discriminate].
  destruct (span alnum t) as [name r]; simpl in L.
  destruct r as [|c r']; [discriminate|].
  destruct (Byte.eqb c "]"%byte); [|discriminate].
  injection H as _ <-. simpl in L. lia.
Qed.

(** ** State threading

    A computation that reads and updates a state of type [S] and returns
    an [A].  The file system and the response writer are the two pieces of
    state of the program. *)

Definition ST (S A : Type) : Type := S -> A * S.

Definition ret {S A} (a : A) : ST S A := fun s => (a, s).

Definition bind {S A B} (m : ST S A) (k : A -> ST S B) : ST S B :=
  fun s => let '(a, s') := m s in k a s'.

Definition modify {S} (f : S -> S) : ST S unit := fun s => (tt, f s).

Declare Scope st_scope.
Delimit Scope st_scope with st.
Notation "x <- m ;; k" := (bind m (fun x => k))
  (at level 100, m at next level, right associativity) : st_scope.
Notation "m ;; k" := (bind m (fun _ => k))
  (at level 100, right associativity) : st_scope.
Local Open Scope st_scope.

(** ** Package os: the file system

    The directory data/ is a finite map from file names to contents.  Two
    kinds of fault are modelled.  A file system mounted read-only refuses
    every write and every removal.  Apart from that, opening a file for
    writing can fail for a reason that its name decides: a name longer
    than the file system allows, a directory that is missing or that the
    process may not write to.  Which names are refused, and with which
    error, is a property of the store, [openFault].  A read fails exactly
    when the file is absent.  Every call is recorded in [trace], so that a
    theorem can say which calls a handler made. *)

Inductive errno : Type := ENOENT | EROFS | ENAMETOOLONG | EACCES.

(** The error type of package os, a path error. *)
Record error : Type := PathError { Op : string; Path : string; Err : errno }.

Definition errno_Error (e : errno) : string :=
  match e with
  | ENOENT => "no such file or directory"
  | EROFS => "read-only file system"
  | ENAMETOOLONG => "file name too long"
  | EACCES => "permission denied"
  end.

(** [err.Error()] *)
Definition Error (e : error) : string :=
  Op e +:+ " " +:+ Path e +:+ ": " +:+ errno_Error (Err e).

Inductive syscall : Type :=
| SysReadFile (name : string)
| SysWriteFile (name : string) (data : list byte) (perm : N)
| SysRemove (name : string).

Record FileSystem : Type := mkFS {
  files : gmap string (list byte);
  readOnly : bool;
  openFault : string -> option errno;
  trace : list syscall
}.

Definition logCall (c : syscall) (fs : FileSystem) : FileSystem :=
  mkFS (files fs) (readOnly fs) (openFault fs) (trace fs ++ [c]).

Definition setFiles (m : gmap string (list byte)) (fs : FileSystem) : FileSystem :=
  mkFS m (readOnly fs) (openFault fs) (trace fs).

(** [ioutil.ReadFile(filename)] *)
Definition ReadFile (filename : string) : ST FileSystem (list byte + error) :=
  fun fs =>
    let fs' := logCall (SysReadFile filename) fs in
    match files fs !! filename with
    | Some data => (inl data, fs')
    | None => (inr (PathError "open" filename ENOENT), fs')
    end.

(** [ioutil.WriteFile(filename, data, perm)]: creates the file or truncates
    it, then writes [data].  It fails, and leaves the files as they are,
    when the file cannot be opened for writing. *)
Definition WriteFile (filename : string) (data : list byte) (perm : N)
  : ST FileSystem (option error) :=
  fun fs =>
    let fs' := logCall (SysWriteFile filename data perm) fs in
    if readOnly fs then (Some (PathError "open" filename EROFS), fs')
    else
      match openFault fs filename with
      | Some e => (Some (PathError "open" filename e), fs')
      | None => (None, setFiles (<[filename := data]> (files fs)) fs')
      end.

(** [os.Remove(name)] *)
Definition Remove (name : string) : ST FileSystem (option error) :=
  fun fs =>
    let fs' := logCall (SysRemove name) fs in
    match files fs !! name with
    | None => (Some (PathError "remove" name ENOENT), fs')
    | Some _ =>
        if readOnly fs then (Some (PathError "remove" name EROFS), fs')
        else (None, setFiles (delete name (files fs)) fs')
    end.

(** ** The page store *)

(** [type Page struct] *)
Record Page : Type := mkPage {
  Title : string;
  Body : list byte;
  DispBody : string;
  FromSave : bool;
  FromDelete : bool
}.

(** The double quote character. *)
Definition dq : string := String (ascii_of_nat 34) EmptyString.

(** The line feed character. *)
Definition nl : string := String (ascii_of_nat 10) EmptyString.

(** [fmt.Sprintf] of the anchor format of [loadPage] with [name] for both
    verbs: an anchor to /view/name whose text is name. *)
Definition anchor (name : string) : string :=
  "<a href=" +:+ dq +:+ "/view/" +:+ name +:+ dq +:+ ">" +:+ name +:+ "</a>".

(** The function literal [loadPage] passes to [ReplaceAllFunc]. *)
Definition expandMatch (m : list byte) : list byte :=
  let name := gostring (firstn (length m - 1 - 1) (skipn 1 m)) in
  bytes (anchor name).

(** [data/<title>.txt] *)
Definition filename (title : string) : string := "data/" +:+ title +:+ ".txt".

(** [Page.save()] *)
Definition save (p : Page) : ST FileSystem (option error) :=
  WriteFile (filename (Title p)) (Body p) 384%N.

(** [func loadPage(title string)], which returns a page pointer and an
    error: [inl] is a page with a nil error, [inr] a nil page with an
    error. *)
Definition loadPage (title : string) : ST FileSystem (Page + error) :=
  r <- ReadFile (filename title) ;;
  match r with
  | inr err => ret (inr err)
  | inl body =>
      let dispBody := gostring (ReplaceAllFunc expandMatch body) in
      ret (inl (mkPage title body dispBody false false))
  end.

(** ** Package net/http: requests and the response writer *)

Definition StatusOK : nat := 200.
Definition StatusMovedPermanently : nat := 301.
Definition StatusFound : nat := 302.
Definition StatusTemporaryRedirect : nat := 307.
Definition StatusBadRequest : nat := 400.
Definition StatusNotFound : nat := 404.
Definition StatusInternalServerError : nat := 500.

Definition MethodGet : string := "GET".
Definition MethodPost : string := "POST".

(** [http.StatusText] on the codes above. *)
Definition StatusText (code : nat) : string :=
  if Nat.eqb code 200 then "OK"
  else if Nat.eqb code 301 then "Moved Permanently"
  else if Nat.eqb code 302 then "Found"
  else if Nat.eqb code 307 then "Temporary Redirect"
  else if Nat.eqb code 400 then "Bad Request"
  else if Nat.eqb code 404 then "Not Found"
  else if Nat.eqb code 500 then "Internal Server Error"
  else "".

(** [*http.Request]: the method, [r.URL.Path], the parsed query of the URL
    and the parsed form of the body, both as key/value lists in order. *)
Record Request : Type := mkRequest {
  Method : string;
  URL_Path : string;
  URL_Query : list (string * string);
  PostForm : list (string * string)
}.

(** [url.Values.Get]: the first value of [key], or the empty string. *)
Fixpoint Values_Get (vs : list (string * string)) (key : string) : string :=
  match vs with
  | [] => ""
  | (k, v) :: vs' => if String.eqb k key then v else Values_Get vs' key
  end.

(** [r.FormValue(key)]: body parameters take precedence over the query. *)
Definition FormValue (r : Request) (key : string) : string :=
  Values_Get (PostForm r ++ URL_Query r) key.

(** [http.ResponseWriter], as implemented by the server: the header map of
    the handler, whether the status line went out, the status and the
    header that went out with it, the body written so far, and the error
    log of the server. *)
Record ResponseWriter : Type := mkW {
  header : gmap string string;
  wroteHeader : bool;
  status : nat;
  sentHeader : gmap string string;
  body : string;
  errorLog : list string
}.

Definition newResponseWriter : ResponseWriter :=
  mkW ∅ false 0 ∅ "" [].

(** [w.Header().Set(key, value)] *)
Definition Header_Set (key value : string) : ST ResponseWriter unit :=
  modify (fun w => mkW (<[key := value]> (header w)) (wroteHeader w) (status w)
                       (sentHeader w) (body w) (errorLog w)).

(** [w.Header().Del(key)] *)
Definition Header_Del (key : string) : ST ResponseWriter unit :=
  modify (fun w => mkW (delete key (header w)) (wroteHeader w) (status w)
                       (sentHeader w) (body w) (errorLog w)).

(** [w.WriteHeader(code)]: the first call fixes the status and the header
    that is sent; a later call is logged and otherwise ignored. *)
Definition WriteHeader (code : nat) : ST ResponseWriter unit :=
  modify (fun w =>
    if wroteHeader w then
      mkW (header w) true (status w) (sentHeader w) (body w)
          (errorLog w ++ ["http: superfluous response.WriteHeader call"])
    else mkW (header w) true code (header w) (body w) (errorLog w)).

(** [w.Write(data)]: sends status 200 first if no status went out. *)
Definition Write (data : string) : ST ResponseWriter unit :=
  (fun w => if wroteHeader w then (tt, w) else WriteHeader StatusOK w) ;;
  modify (fun w => mkW (header w) (wroteHeader w) (status w) (sentHeader w)
                       (body w +:+ data) (errorLog w)).

(** [fmt.Fprintln(w, s)] *)
Definition Fprintln (s : string) : ST ResponseWriter unit := Write (s +:+ nl).

(** [http.Error(w, error, code)] *)
Definition http_Error (error : string) (code : nat) : ST ResponseWriter unit :=
  Header_Del "Content-Length" ;;
  Header_Set "Content-Type" "text/plain; charset=utf-8" ;;
  Header_Set "X-Content-Type-Options" "nosniff" ;;
  WriteHeader code ;;
  Fprintln error.

(** [http.NotFound(w, r)] *)
Definition http_NotFound : ST ResponseWriter unit :=
  http_Error "404 page not found" StatusNotFound.

(** The HTML escaping of [http.Redirect] for its short body. *)
Fixpoint htmlEscape (s : string) : string :=
  match s with
  | EmptyString => EmptyString
  | String c s' =>
      (if Ascii.eqb c "&" then "&amp;"
       else if Ascii.eqb c "<" then "&lt;"
       else if Ascii.eqb c ">" then "&gt;"
       else if Nat.eqb (nat_of_ascii c) 34 then "&#34;"
       else if Ascii.eqb c "'" then "&#39;"
       else String c EmptyString) +:+ htmlEscape s'
  end.

(** [http.Redirect(w, r, url, code)].  The normalisation Go applies to
    [url] (cleaning of dot segments, escaping of non-ASCII bytes) is the
    identity on the targets the handlers build from a title accepted by
    [validPath], and is left out.  The short HTML body is written for GET
    requests only, and only if the handler set no Content-Type. *)
Definition http_Redirect (r : Request) (url : string) (code : nat)
  : ST ResponseWriter unit :=
  fun w =>
    let hadCT := match header w !! "Content-Type" with
                 | Some _ => true
                 | None => false
                 end in
    (Header_Set "Location" url ;;
     (if negb hadCT && (String.eqb (Method r) "GET" || String.eqb (Method r) "HEAD")
      then Header_Set "Content-Type" "text/html; charset=utf-8"
      else ret tt) ;;
     WriteHeader code ;;
     (if negb hadCT && String.eqb (Method r) "GET"
      then Fprintln ("<a href=" +:+ dq +:+ htmlEscape url +:+ dq +:+ ">"
                     +:+ StatusText code +:+ "</a>." +:+ nl)
      else ret tt)) w.

(** ** The server state: the response under construction and the store *)

Record Server : Type := mkServer {
  resp : ResponseWriter;
  store : FileSystem
}.

Definition onW {A} (m : ST ResponseWriter A) : ST Server A :=
  fun s => let '(a, w') := m (resp s) in (a, mkServer w' (store s)).

Definition onFS {A} (m : ST FileSystem A) : ST Server A :=
  fun s => let '(a, fs') := m (store s) in (a, mkServer (resp s) fs').

(** ** Package net/http: the request multiplexer

    [http.HandleFunc] registers a pattern with the default mux.  A pattern
    that ends in a slash names a subtree and matches every path it is a
    prefix of; the longest matching pattern wins.  Before it looks up a
    handler, the mux answers by itself, with a 301, a request whose path
    is not in canonical form (repeated slashes, dot segments) and a
    request for a registered subtree without its trailing slash. *)

(** [strings.Split(s, "/")] *)
Fixpoint splitSlash (s : string) : list string :=
  match s with
  | EmptyString => [EmptyString]
  | String c s' =>
      if Ascii.eqb c "/" then EmptyString :: splitSlash s'
      else match splitSlash s' with
           | seg :: rest => String c seg :: rest
           | [] => [String c EmptyString]
           end
  end.

(** The elements of a rooted path that [path.Clean] keeps, innermost
    first in [stack]: empty and dot elements are dropped, a dot-dot element
    removes the element before it, if any. *)
Fixpoint cleanSegs (stack : list string) (segs : list string) : list string :=
  match segs with
  | [] => rev stack
  | seg :: rest =>
      if String.eqb seg "" || String.eqb seg "." then cleanSegs stack rest
      else if String.eqb seg ".." then cleanSegs (tl stack) rest
      else cleanSegs (seg :: stack) rest
  end.

Fixpoint joinSegs (segs : list string) : string :=
  match segs with
  | [] => ""
  | seg :: rest => "/" +:+ seg +:+ joinSegs rest
  end.

(** [path.Clean(p)] for a rooted path [p]. *)
Definition path_Clean (p : string) : string :=
  match cleanSegs [] (splitSlash p) with
  | [] => "/"
  | segs => joinSegs segs
  end.

Fixpoint endsWithSlash (s : string) : bool :=
  match s with
  | EmptyString => false
  | String c EmptyString => Ascii.eqb c "/"
  | String _ s' => endsWithSlash s'
  end.

(** A string without a slash. *)
Fixpoint noSlash (s : string) : bool :=
  match s with
  | EmptyString => true
  | String c s' => negb (Ascii.eqb c "/") && noSlash s'
  end.

(** [cleanPath(p)] of net/http: the canonical path for [p]. *)
Definition cleanPath (p : string) : string :=
  match p with
  | EmptyString => "/"
  | String c _ =>
      let p := if Ascii.eqb c "/" then p else "/" +:+ p in
      let np := path_Clean p in
      if endsWithSlash p && negb (String.eqb np "/") then np +:+ "/" else np
  end.

Section Mux.

Context {H : Type}.

(** The registered patterns with their handlers. *)
Variable entries : list (string * H).

Definition registered (pattern : string) : bool :=
  existsb (fun e => String.eqb (fst e) pattern) entries.

(** The longer of two candidate entries, the earlier one on a tie. *)
Definition longer (best : option (string * H)) (e : string * H) : option (string * H) :=
  match best with
  | None => Some e
  | Some b => if Nat.ltb (String.length (fst b)) (String.length (fst e)) then Some e else best
  end.

(** [mux.match(path)]: an exact match first, then the longest registered
    subtree pattern that is a prefix of [path]. *)
Definition mux_match (path : string) : option (string * H) :=
  match find (fun e => String.eqb (fst e) path) entries with
  | Some e => Some e
  | None =>
      fold_left longer
        (List.filter (fun e => endsWithSlash (fst e) && String.prefix (fst e) path)
                     entries)
        None
  end.

(** [mux.shouldRedirect(path)]: [path] is not registered but [path/] is. *)
Definition shouldRedirect (path : string) : bool :=
  negb (registered path)
  && negb (Nat.eqb (String.length path) 0)
  && registered (path +:+ "/")
  && negb (endsWithSlash path).

(** The path the mux redirects [r] to with a 301, if it does.  CONNECT
    requests are not canonicalised. *)
Definition mux_redirect (r : Request) : option string :=
  if String.eqb (Method r) "CONNECT" then
    if shouldRedirect (URL_Path r) then Some (URL_Path r +:+ "/") else None
  else
    let path := cleanPath (URL_Path r) in
    if shouldRedirect path then Some (path +:+ "/")
    else if negb (String.eqb path (URL_Path r)) then Some path
    else None.

End Mux.

(** The five patterns [main] registers, each with its handler. *)
Definition patterns {H : Type} (root view edit save delete : H) : list (string * H) :=
  [ ("/", root); ("/view/", view); ("/edit/", edit);
    ("/save/", save); ("/delete/", delete) ].

(** What the server does with a request: the mux redirects it, or a
    handler runs and leaves a response and a store. *)
Inductive Outcome : Type :=
| Moved (path : string)
| Served (s : Server).

(** ** The handlers of wiki.go *)

Section Wiki.

(** [templates.ExecuteTemplate(w, name, p)] for the two parsed template
    files tmpl/edit.html and tmpl/view.html: the chunks it writes to [w],
    in order, and the error it returns, if any.  It is a function of the
    template name and the page alone. *)
Variable ExecuteTemplate : string -> Page -> list string * option string.

Fixpoint WriteAll (chunks : list string) : ST ResponseWriter unit :=
  match chunks with
  | [] => ret tt
  | c :: cs => Write c ;; WriteAll cs
  end.

(** [func renderTemplate(w, tmpl, p)] *)
Definition renderTemplate (tmpl : string) (p : Page) : ST Server unit :=
  let '(chunks, err) := ExecuteTemplate (tmpl +:+ ".html") p in
  onW (WriteAll chunks) ;;
  match err with
  | Some e => onW (http_Error e StatusInternalServerError)
  | None => ret tt
  end.

Definition setFromSave (p : Page) : Page :=
  mkPage (Title p) (Body p) (DispBody p) true (FromDelete p).

Definition setFromDelete (p : Page) : Page :=
  mkPage (Title p) (Body p) (DispBody p) (FromSave p) true.

(** [func viewHandler(w, r, title)] *)
Definition viewHandler (r : Request) (title : string) : ST Server unit :=
  l <- onFS (loadPage title) ;;
  match l with
  | inr _ => onW (http_Redirect r ("/edit/" +:+ title) StatusFound)
  | inl p =>
      let q := URL_Query r in
      let b := Values_Get q "from_save" in
      let p := if String.eqb b "true" then setFromSave p else p in
      let b := Values_Get q "from_delete" in
      let p := if String.eqb b "true" then setFromDelete p else p in
      renderTemplate "view" p
  end.

(** [func editHandler(w, r, title)] *)
Definition editHandler (r : Request) (title : string) : ST Server unit :=
  l <- onFS (loadPage title) ;;
  let p := match l with
           | inr _ => mkPage title [] "" false false
           | inl p => p
           end in
  renderTemplate "edit" p.

(** [func saveHandler(w, r, title)] *)
Definition saveHandler (r : Request) (title : string) : ST Server unit :=
  if negb (String.eqb (Method r) MethodPost) then
    onW (http_Error "400 - Bad method type" StatusBadRequest)
  else
    let body := FormValue r "body" in
    let pg := mkPage title (bytes body) "" false false in
    err <- onFS (save pg) ;;
    match err with
    | Some e => onW (http_Error (Error e) StatusInternalServerError)
    | None =>
        onW (http_Redirect r ("/view/" +:+ title +:+ "?from_save=true") StatusFound)
    end.

(** [func deleteHandler(w, r, title)].  The branch taken when the removal
    fails has no return statement: control goes on to the redirect. *)
Definition deleteHandler (r : Request) (title : string) : ST Server unit :=
  if negb (String.eqb (Method r) MethodPost) then
    onW (http_Error "400 - Bad method type" StatusBadRequest)
  else
    l <- onFS (loadPage title) ;;
    match l with
    | inr _ => onW (http_Error "404 - Page not found" StatusNotFound)
    | inl _ =>
        err <- onFS (Remove ("data/" +:+ title +:+ ".txt")) ;;
        match err with
        | Some e => onW (http_Error (Error e) StatusInternalServerError)
        | None => ret tt
        end ;;
        onW (http_Redirect r "/view/FrontPage?from_delete=true" StatusFound)
    end.

(** [func makeHandler(fn)] *)
Definition makeHandler (fn : Request -> string -> ST Server unit)
  : Request -> ST Server unit :=
  fun r =>
    match FindStringSubmatch (URL_Path r) with
    | None => onW http_NotFound
    | Some m => fn r (nth 2 m "")
    end.

(** The handler that [makeHandler] wraps for an operation. *)
Definition handlerOf (op : string) : Request -> string -> ST Server unit :=
  if String.eqb op "view" then viewHandler
  else if String.eqb op "edit" then editHandler
  else if String.eqb op "save" then saveHandler
  else deleteHandler.

(** [func redirFrontPage(w, r)] *)
Definition redirFrontPage (r : Request) : ST Server unit :=
  onW (http_Redirect r "/view/FrontPage" StatusTemporaryRedirect).

(** The registrations of [main], in order. *)
Definition routes : list (string * (Request -> ST Server unit)) :=
  patterns redirFrontPage (makeHandler viewHandler) (makeHandler editHandler)
           (makeHandler saveHandler) (makeHandler deleteHandler).

(** The end of a request: a handler that wrote nothing answers 200. *)
Definition finishRequest : ST ResponseWriter unit :=
  fun w => if wroteHeader w then (tt, w) else WriteHeader StatusOK w.

(** [http.NotFoundHandler()] *)
Definition NotFoundHandler (r : Request) : ST Server unit := onW http_NotFound.

(** [mux.Handler(r)] when the mux does not redirect. *)
Definition mux_Handler (r : Request) : Request -> ST Server unit :=
  match mux_match routes (URL_Path r) with
  | Some (_, h) => h
  | None => NotFoundHandler
  end.

(** Running a handler on a fresh response writer. *)
Definition run (h : ST Server unit) (fs : FileSystem) : Server :=
  snd ((h ;; onW finishRequest) (mkServer newResponseWriter fs)).

(** [DefaultServeMux.ServeHTTP(w, r)], on the store [fs]. *)
Definition ServeHTTP (r : Request) (fs : FileSystem) : Outcome :=
  match mux_redirect routes r with
  | Some path => Moved path
  | None => Served (run (mux_Handler r r) fs)
  end.

End Wiki.

(** ** The words of the specification *)

(** A title: one or more alphanumeric characters. *)
Definition ValidTitle (title : string) : Prop :=
  title <> "" /\ forallb alnum (bytes title) = true.

(** A path of the form /op/title, with op one of the four operations and
    title a valid title. *)
Definition ValidRoute (path op title : string) : Prop :=
  In op ["edit"; "save"; "view"; "delete"]
  /\ ValidTitle title
  /\ path = "/" +:+ op +:+ "/" +:+ title.

(** A bracket-delimited token: an opening bracket, the name, a closing
    bracket. *)
Definition token (name : list byte) : list byte :=
  "["%byte :: name ++ ["]"%byte].

(** [s] contains no token with an alphanumeric (possibly empty) name. *)
Definition no_token (s : list byte) : Prop :=
  ~ exists pre name post,
      forallb alnum name = true /\ s = pre ++ token name ++ post.


(** The link expansion [loadPage] computes. *)
Definition expandLinks (body : list byte) : list byte :=
  ReplaceAllFunc expandMatch body.

(** The calls of a trace that only read. *)
Definition isRead (c : syscall) : bool :=
  match c with
  | SysReadFile _ => true
  | _ => false
  end.

(** ** Sample data for the concrete instances below *)

(** A stand-in for the two template files: the view shows the expanded
    body, the edit form the raw one. *)
Definition sampleTemplates (name : string) (p : Page) : list string * option string :=
  if String.eqb name "view.html"
  then (["<h1>" +:+ Title p +:+ "</h1>"; DispBody p], None)
  else (["<textarea>" +:+ gostring (Body p) +:+ "</textarea>"], None).

(** The limit of 255 bytes on a file name, for a file of the directory
    data/. *)
Definition nameLimit (name : string) : option errno :=
  if Nat.ltb 260 (String.length name) then Some ENAMETOOLONG else None.

Definition sampleStore : FileSystem :=
  mkFS {[ "data/Foo.txt" := bytes "Hello [Other] []" ]} false nameLimit [].

Definition sampleReadOnlyStore : FileSystem :=
  mkFS {[ "data/Foo.txt" := bytes "Hello [Other] []" ]} true nameLimit [].

(** A store whose directory the process may read but not write to. *)
Definition sampleUnwritableStore : FileSystem :=
  mkFS {[ "data/Foo.txt" := bytes "Hello [Other] []" ]} false
       (fun _ => Some EACCES) [].

(** The header map [http.Error] leaves on a fresh response writer. *)
Definition errorHeader : gmap string string :=
  <["X-Content-Type-Options" := "nosniff"]>
    (<["Content-Type" := "text/plain; charset=utf-8"]>
       (delete "Content-Length" ∅)).

Definition getView (title : string) : Request :=
  mkRequest "GET" ("/view/" +:+ title) [] [].

Definition postDelete (title : string) : Request :=
  mkRequest "POST" ("/delete/" +:+ title) [] [].

Definition samplePage : Page :=
  mkPage "Foo" (bytes "Hello [Other] []") "" false false.

(** A new text for the page Foo, and a page the sample store lacks. *)
Definition editedPage : Page :=
  mkPage "Foo" (bytes "New text [Bar]") "" false false.

Definition newPage : Page :=
  mkPage "Bar" (bytes "Hello [Foo]") "" false false.


(** The file a call to the store names. *)
Definition syscall_file (c : syscall) : string :=
  match c with
  | SysReadFile name => name
  | SysWriteFile name _ _ => name
  | SysRemove name => name
  end.

(** The text a sequence of writes leaves in the body of a response. *)
Definition written (chunks : list string) : string :=
  fold_right append "" chunks.

(** A template set that fails: the view template after its first chunk,
    the edit template before it writes anything. *)
Definition failingTemplates (name : string) (p : Page) : list string * option string :=
  if String.eqb name "view.html"
  then (["<h1>" +:+ Title p +:+ "</h1>"], Some "template: no such field")
  else ([], Some "template: no such field").

Definition postSave (title body : string) : Request :=
  mkRequest "POST" ("/save/" +:+ title) [] [("body", body)].

Definition getViewAfterSave (title : string) : Request :=
  mkRequest "GET" ("/view/" +:+ title) [("from_save", "true")] [].

(** ** The first version of the program

    The first unnamed source file: no routing pattern, no templates, no
    data directory.  Each handler cuts the title out of the path by its
    length and writes its page with [fmt.Fprintf]. *)
Module First.

(** [type Page struct] *)
Record Page : Type := mkPage {
  Title : string;
  Body : list byte
}.

(** How a call of a handler ends: it returns, or it panics. *)
Inductive Completion : Type :=
| Returned
| Panicked (msg : string).

(** The slice expression [s[n:]]: [None] is the run-time panic for a
    bound beyond the length of [s]. *)
Fixpoint sliceFrom (n : nat) (s : string) : option string :=
  match n with
  | 0 => Some s
  | S n' =>
      match s with
      | EmptyString => None
      | String _ s' => sliceFrom n' s'
      end
  end.

Definition sliceOutOfRange : string := "runtime error: slice bounds out of range".

(** [func (p *Page) save() error] has no directory in the file name. *)
Definition save (p : Page) : ST FileSystem (option error) :=
  WriteFile (Title p +:+ ".txt") (Body p) 384%N.

(** [func loadPage(title string)] *)
Definition loadPage (title : string) : ST FileSystem (Page + error) :=
  r <- ReadFile (title +:+ ".txt") ;;
  match r with
  | inr err => ret (inr err)
  | inl body => ret (inl (mkPage title body))
  end.

Section Handlers.

(** [r.ParseForm()]: the error it returns, if any.  The parsed values are
    the fields of the request. *)
Variable ParseForm : Request -> option string.

(** [func viewHandler(w, r)]: [fmt.Fprintf] formats and then makes one
    write. *)
Definition viewHandler (r : Request) : ST Server Completion :=
  match sliceFrom (String.length "/view/") (URL_Path r) with
  | None => ret (Panicked sliceOutOfRange)
  | Some title =>
      l <- onFS (loadPage title) ;;
      match l with
      | inr err =>
          onW (Write ("<h1>An error occurred while retrieving: " +:+ title
                      +:+ "</h1><div>" +:+ Error err +:+ "</div>"))
      | inl p =>
          onW (Write ("<h1>" +:+ Title p +:+ "</h1><div>" +:+ gostring (Body p)
                      +:+ "</div>"))
      end ;;
      ret Returned
  end.

(** [func saveHandler(w, r)]: the title is cut with the length of /view/,
    which is the length of /save/.  The last [fmt.Fprintf] has an argument
    and no verb for it, which [fmt] reports at the end of the output. *)
Definition saveHandler (r : Request) : ST Server Completion :=
  match sliceFrom (String.length "/view/") (URL_Path r) with
  | None => ret (Panicked sliceOutOfRange)
  | Some title =>
      match ParseForm r with
      | Some err =>
          onW (Write ("<h1>An error occurred while attempting to save: " +:+ title
                      +:+ "</h1><div>" +:+ err +:+ "</div>")) ;;
          ret Returned
      | None =>
          let body := Values_Get (PostForm r ++ URL_Query r) "body" in
          let pg := mkPage title (bytes body) in
          err <- onFS (save pg) ;;
          match err with
          | Some e =>
              onW (Write ("<h1>An error occurred while attempting to save: "
                          +:+ title +:+ "</h1><div>" +:+ Error e +:+ "</div>"))
          | None =>
              onW (Write ("<h1>Post saved!</h1>" +:+ "%!(EXTRA string=" +:+ title
                          +:+ ")"))
          end ;;
          ret Returned
      end
  end.

End Handlers.

End First.

(** ** The version of the program before the delete operation

    The second unnamed source file: the same program without the delete
    handler.  Its [loadPage] expands the links before it looks at the
    error of the read, and its [viewHandler] sets the banner flag on the
    page before it looks at the error of the load. *)
Module Earlier.

(** [type Page struct], without the FromDelete field. *)
Record Page : Type := mkPage {
  Title : string;
  Body : list byte;
  DispBody : string;
  FromSave : bool
}.

(** How a call of a handler ends: it returns, or it panics. *)
Inductive Completion : Type :=
| Returned
| Panicked (msg : string).

(** The run-time error of a field assignment through a nil pointer. *)
Definition nilDereference : string :=
  "runtime error: invalid memory address or nil pointer dereference".

(** [func loadPage(title string)]: [ioutil.ReadFile] returns a nil slice
    with an error, so the expansion that precedes the error check runs on
    the empty text. *)
Definition loadPage (title : string) : ST FileSystem (Page + error) :=
  r <- ReadFile (filename title) ;;
  let body := match r with
              | inl data => data
              | inr _ => []
              end in
  let dispBody := gostring (ReplaceAllFunc expandMatch body) in
  match r with
  | inr err => ret (inr err)
  | inl _ => ret (inl (mkPage title body dispBody false))
  end.

Section Handlers.

Variable ExecuteTemplate : string -> Page -> list string * option string.

(** [func renderTemplate(w, tmpl, p)] *)
Definition renderTemplate (tmpl : string) (p : Page) : ST Server unit :=
  let '(chunks, err) := ExecuteTemplate (tmpl +:+ ".html") p in
  onW (WriteAll chunks) ;;
  match err with
  | Some e => onW (http_Error e StatusInternalServerError)
  | None => ret tt
  end.

(** [func viewHandler(w, r, title)]: the page pointer is nil exactly when
    the load returned an error, and the assignment to its field comes
    before the error check. *)
Definition viewHandler (r : Request) (title : string) : ST Server Completion :=
  l <- onFS (loadPage title) ;;
  let q := URL_Query r in
  let b := Values_Get q "from_save" in
  match (if String.eqb b "true"
         then match l with
              | inl p => inl (inl (mkPage (Title p) (Body p) (DispBody p) true))
              | inr _ => inr nilDereference
              end
         else inl l) with
  | inr msg => ret (Panicked msg)
  | inl (inr _) =>
      onW (http_Redirect r ("/edit/" +:+ title) StatusFound) ;; ret Returned
  | inl (inl p) => renderTemplate "view" p ;; ret Returned
  end.

End Handlers.

End Earlier.

(** * Properties *)

(** ** Bytes and strings *)

Lemma bytes_app (a b : string) : bytes (a +:+ b) = bytes a ++ bytes b.
Proof.
  unfold bytes, list_byte_of_string.
  induction a as [|c a IH]; simpl; [reflexivity|].
  f_equal. exact IH.
Qed.

Lemma gostring_bytes (s : string) : gostring (bytes s) = s.
Proof. apply string_of_list_byte_of_string. Qed.

Lemma bytes_gostring (b : list byte) : bytes (gostring b) = b.
Proof. apply list_byte_of_string_of_list_byte. Qed.

Lemma bytes_inj (a b : string) : bytes a = bytes b -> a = b.
Proof.
  intros E. rewrite <- (gostring_bytes a), <- (gostring_bytes b). now rewrite E.
Qed.

Lemma bytes_nil_inv (s : string) : bytes s = [] -> s = "".
Proof. intros E. apply bytes_inj. exact E. Qed.

Lemma byte_eqb_eq (a b : byte) : Byte.eqb a b = true <-> a = b.
Proof.
  split; [apply Byte.byte_dec_bl | apply Byte.byte_dec_lb].
Qed.

Lemma byte_eqb_refl (a : byte) : Byte.eqb a a = true.
Proof. now apply byte_eqb_eq. Qed.

Lemma trimPrefix_Some (p s rest : list byte) :
  trimPrefix p s = Some rest <-> s = p ++ rest.
Proof.
  revert s; induction p as [|c p IH]; intros s; simpl.
  - split; [intros [= ->]; reflexivity | intros ->; reflexivity].
  - destruct s as [|d s]; [split; discriminate|].
    destruct (Byte.eqb c d) eqn:E.
    + apply byte_eqb_eq in E; subst d. rewrite IH.
      split; [intros ->; reflexivity | intros [= ->]; reflexivity].
    + split; [discriminate|]. intros [= -> _].
      rewrite byte_eqb_refl in E. discriminate.
Qed.

(** ** The language of the two patterns *)

Lemma span_length f s : length (snd (span f s)) <= length s.
Proof.
  induction s as [|b t IH]; simpl; [lia|].
  destruct (f b); simpl; [|lia].
  destruct (span f t) as [u v]; simpl in *; lia.
Qed.

Lemma interPageLink_matchAt_shorter s m rest :
  interPageLink_matchAt s = Some (m, rest) -> length rest < length s.
Proof.
  destruct s as [|b t]; simpl; [discriminate|].
  destruct (Byte.eqb b "["%byte); [|discriminate].
  pose proof (span_length alnum t) as Hl.
  destruct (span alnum t) as [name r]; simpl in Hl.
  destruct r as [|c r']; [discriminate|].
  destruct (Byte.eqb c "]"%byte); [|discriminate].
  intros [= _ <-]. simpl in Hl. lia.
Qed.


Lemma matches_star_class rs s :
  matches (Star (CharClass rs)) s <-> forallb (in_class rs) s = true.
Proof.
  split.
  - intros M. remember (Star (CharClass rs)) as r eqn:Er.
    induction M; inversion Er; subst; clear Er; [reflexivity|].
    inversion M1; subst. simpl.
    rewrite IHM2 by reflexivity.
    now match goal with E : in_class _ _ = true |- _ => rewrite E end.
  - induction s as [|b s IH]; simpl; intros E; [constructor|].
    apply andb_prop in E as [Eb Es].
    change (b :: s) with ([b] ++ s).
    constructor; [now constructor | now apply IH].
Qed.

Lemma matches_plus_class rs s :
  matches (Plus (CharClass rs)) s <-> s <> [] /\ forallb (in_class rs) s = true.
Proof.
  split.
  - intros M. inversion M as [| | | | | | |r s1 s2 M1 M2|]; subst.
    inversion M1; subst. apply matches_star_class in M2.
    split; [discriminate|]. simpl. rewrite M2.
    now match goal with E : in_class _ _ = true |- _ => rewrite E end.
  - intros [Hne E]. destruct s as [|b s]; [contradiction|].
    simpl in E. apply andb_prop in E as [Eb Es].
    change (b :: s) with ([b] ++ s).
    constructor; [now constructor | now apply matches_star_class].
Qed.

Lemma matches_word l s : l <> [] -> matches (word l) s <-> s = l.
Proof.
  intros Hne. revert s. induction l as [|b l IH]; [contradiction|].
  intros s. destruct l as [|c l].
  - simpl. split; [intros M; now inversion M | intros ->; constructor].
  - change (word (b :: c :: l)) with (Cat (Lit b) (word (c :: l))).
    split.
    + intros M. inversion M as [| |r1 r2 s1 s2 M1 M2| | | | | |]; subst.
      inversion M1; subst. apply IH in M2; [|discriminate]. now subst.
    + intros ->. change (b :: c :: l) with ([b] ++ c :: l).
      constructor; [constructor|]. apply IH; [discriminate|reflexivity].
Qed.

Lemma matches_alt r1 r2 s :
  matches (Alt r1 r2) s <-> matches r1 s \/ matches r2 s.
Proof.
  split.
  - intros M. inversion M; subst; [now left | now right].
  - intros [M|M]; [now apply MAltL | now apply MAltR].
Qed.

Lemma matches_validPath_op s :
  matches validPath_op s <-> exists op, In op validPath_ops /\ s = bytes op.
Proof.
  unfold validPath_op, validPath_ops.
  rewrite !matches_alt, !matches_word by discriminate.
  split.
  - intros [[[->| ->]| ->]| ->]; eexists; (split; [|reflexivity]); simpl; tauto.
  - intros [op [Hin ->]]. simpl in Hin.
    destruct Hin as [<-|[<-|[<-|[<-|[]]]]]; tauto.
Qed.

Lemma matches_cat r1 r2 s :
  matches (Cat r1 r2) s <->
  exists s1 s2, s = s1 ++ s2 /\ matches r1 s1 /\ matches r2 s2.
Proof.
  split.
  - intros M. inversion M; subst. eauto.
  - intros [s1 [s2 [-> [M1 M2]]]]. now constructor.
Qed.

Lemma matches_lit b s : matches (Lit b) s <-> s = [b].
Proof.
  split; [intros M; now inversion M | intros ->; constructor].
Qed.

Lemma matches_group r s : matches (Group r) s <-> matches r s.
Proof.
  split; [intros M; now inversion M | now constructor].
Qed.

(** The language of [validPath], spelled out. *)
Lemma matches_validPath s :
  matches validPath s <->
  exists op title,
    In op validPath_ops /\ title <> [] /\ forallb alnum title = true
    /\ s = bytes "/" ++ bytes op ++ bytes "/" ++ title.
Proof.
  unfold validPath. split.
  - intros M.
    apply matches_cat in M as [a [s1 [-> [Ma M]]]]. apply matches_lit in Ma as ->.
    apply matches_cat in M as [o [s2 [-> [Mo M]]]].
    apply matches_group, matches_validPath_op in Mo as [op [Hin ->]].
    apply matches_cat in M as [c [t [-> [Mc Mt]]]]. apply matches_lit in Mc as ->.
    apply matches_group, matches_plus_class in Mt as [Hne Hal].
    exists op, t. repeat split; assumption.
  - intros [op [title [Hin [Hne [Hal ->]]]]].
    constructor; [constructor|].
    constructor; [constructor; apply matches_validPath_op; eauto|].
    constructor; [constructor|].
    constructor. apply matches_plus_class. split; assumption.
Qed.

Lemma firstAlt_sound ops s op rest :
  firstAlt ops s = Some (op, rest) -> In op ops /\ s = bytes op ++ rest.
Proof.
  induction ops as [|o ops IH]; [discriminate|].
  cbn [firstAlt].
  destruct (trimPrefix (bytes o) s) as [r|] eqn:E.
  - intros [= <- <-]. apply trimPrefix_Some in E. split; [now left | exact E].
  - intros F. apply IH in F as [Hin Es]. split; [now right | exact Es].
Qed.

Lemma firstAlt_complete op t :
  In op validPath_ops ->
  firstAlt validPath_ops (bytes op ++ "/"%byte :: t) = Some (op, "/"%byte :: t).
Proof.
  unfold validPath_ops. simpl In.
  intros [<-|[<-|[<-|[<-|[]]]]]; reflexivity.
Qed.

Lemma FindStringSubmatch_sound path m :
  FindStringSubmatch path = Some m ->
  exists op title, ValidRoute path op title /\ m = [path; op; title].
Proof.
  unfold FindStringSubmatch.
  destruct (trimPrefix (bytes "/") (bytes path)) as [s1|] eqn:E1; [|discriminate].
  destruct (firstAlt validPath_ops s1) as [[op s2]|] eqn:E2; [|discriminate].
  destruct (trimPrefix (bytes "/") s2) as [title|] eqn:E3; [|discriminate].
  destruct (negb (Nat.eqb (length title) 0) && forallb alnum title) eqn:E4;
    [|discriminate].
  intros [= <-].
  apply trimPrefix_Some in E1, E3. apply firstAlt_sound in E2 as [Hin E2].
  apply andb_prop in E4 as [E4 E5]. subst s1 s2.
  exists op, (gostring title). split; [|reflexivity].
  split; [exact Hin|]. split.
  - split.
    + intros E. destruct title; [discriminate|].
      apply (f_equal bytes) in E. rewrite bytes_gostring in E. discriminate.
    + now rewrite bytes_gostring.
  - apply bytes_inj. rewrite !bytes_app, bytes_gostring. exact E1.
Qed.

Lemma FindStringSubmatch_complete path op title :
  ValidRoute path op title ->
  FindStringSubmatch path = Some [path; op; title].
Proof.
  intros [Hin [[Hne Hal] ->]].
  unfold FindStringSubmatch. rewrite !bytes_app.
  change (trimPrefix (bytes "/") (bytes "/" ++ bytes op ++ bytes "/" ++ bytes title))
    with (Some (bytes op ++ "/"%byte :: bytes title)).
  cbv beta iota. rewrite (firstAlt_complete op (bytes title) Hin).
  change (trimPrefix (bytes "/") ("/"%byte :: bytes title)) with (Some (bytes title)).
  cbv beta iota. rewrite Hal, gostring_bytes.
  destruct (bytes title) eqn:Et; [|reflexivity].
  apply bytes_nil_inv in Et. contradiction.
Qed.

(** [FindStringSubmatch] returns nil exactly on the paths outside the
    language of the pattern. *)
Lemma FindStringSubmatch_None path :
  FindStringSubmatch path = None <-> ~ matches validPath (bytes path).
Proof.
  split.
  - intros E M. apply matches_validPath in M as [op [title [Hin [Hne [Hal Es]]]]].
    assert (V : ValidRoute path op (gostring title)).
    { split; [exact Hin|]. split.
      - split; [|now rewrite bytes_gostring].
        intros E'. apply (f_equal bytes) in E'. rewrite bytes_gostring in E'.
        contradiction.
      - apply bytes_inj. rewrite !bytes_app, bytes_gostring. exact Es. }
    apply FindStringSubmatch_complete in V. congruence.
  - intros N. destruct (FindStringSubmatch path) as [m|] eqn:E; [|reflexivity].
    exfalso. apply N.
    apply FindStringSubmatch_sound in E as [op [title [[Hin [[Hne Hal] ->]] _]]].
    apply matches_validPath. exists op, (bytes title).
    repeat split; try assumption.
    + intros E. apply bytes_nil_inv in E. contradiction.
    + now rewrite !bytes_app.
Qed.

(** The language of [interPageLink]: the tokens with an alphanumeric
    name. *)
Lemma matches_interPageLink m :
  matches interPageLink m <->
  exists name, forallb alnum name = true /\ m = token name.
Proof.
  unfold interPageLink, token. split.
  - intros M.
    apply matches_cat in M as [a [s1 [-> [Ma M]]]]. apply matches_lit in Ma as ->.
    apply matches_cat in M as [name [c [-> [Mn Mc]]]]. apply matches_lit in Mc as ->.
    apply matches_group, matches_star_class in Mn.
    exists name. split; [exact Mn | reflexivity].
  - intros [name [Hal ->]].
    change ("["%byte :: name ++ ["]"%byte]) with (["["%byte] ++ name ++ ["]"%byte]).
    constructor; [constructor|].
    constructor; [|constructor].
    constructor. now apply matches_star_class.
Qed.

Lemma span_app_stop f name rest :
  forallb f name = true ->
  match rest with [] => True | c :: _ => f c = false end ->
  span f (name ++ rest) = (name, rest).
Proof.
  intros Hal Hstop. induction name as [|b name IH]; simpl in *.
  - destruct rest as [|c rest]; [reflexivity|]. simpl. now rewrite Hstop.
  - apply andb_prop in Hal as [Hb Hal]. rewrite Hb, (IH Hal). reflexivity.
Qed.

Lemma span_spec f s u v :
  span f s = (u, v) ->
  s = u ++ v /\ forallb f u = true
  /\ match v with [] => True | c :: _ => f c = false end.
Proof.
  revert u v. induction s as [|b s IH]; simpl; intros u v.
  - intros [= <- <-]. auto.
  - destruct (f b) eqn:Eb.
    + destruct (span f s) as [u' v'] eqn:Es. intros [= <- <-].
      destruct (IH u' v' eq_refl) as [-> [Hal Hstop]].
      simpl. rewrite Eb, Hal. auto.
    + intros [= <- <-]. simpl. auto.
Qed.


Lemma interPageLink_matchAt_token name rest :
  forallb alnum name = true ->
  interPageLink_matchAt (token name ++ rest) = Some (token name, rest).
Proof.
  intros Hal. unfold token, interPageLink_matchAt. simpl.
  rewrite <- app_assoc. simpl.
  rewrite (span_app_stop alnum name ("]"%byte :: rest) Hal eq_refl).
  reflexivity.
Qed.

Lemma interPageLink_matchAt_sound s m rest :
  interPageLink_matchAt s = Some (m, rest) ->
  exists name, forallb alnum name = true /\ m = token name /\ s = m ++ rest.
Proof.
  destruct s as [|b t]; simpl; [discriminate|].
  destruct (Byte.eqb b "["%byte) eqn:Eb; [|discriminate].
  apply byte_eqb_eq in Eb; subst b.
  destruct (span alnum t) as [name r] eqn:Es.
  apply span_spec in Es as [-> [Hal _]].
  destruct r as [|c r']; [discriminate|].
  destruct (Byte.eqb c "]"%byte) eqn:Ec; [|discriminate].
  apply byte_eqb_eq in Ec; subst c.
  intros [= <- <-]. exists name. unfold token.
  split; [exact Hal|]. split; [reflexivity|].
  simpl. now rewrite <- app_assoc.
Qed.

(** The match found at the start of a text is the only prefix of the text
    in the language of the pattern: leftmost-first matching has no choice
    to make. *)
Lemma interPageLink_matchAt_matches s m rest :
  interPageLink_matchAt s = Some (m, rest) <->
  s = m ++ rest /\ matches interPageLink m.
Proof.
  split.
  - intros E. apply interPageLink_matchAt_sound in E as [name [Hal [-> ->]]].
    split; [reflexivity|]. apply matches_interPageLink. eauto.
  - intros [-> M]. apply matches_interPageLink in M as [name [Hal ->]].
    now apply interPageLink_matchAt_token.
Qed.


(** ** Link expansion *)

Lemma ReplaceAllFunc_cons repl b t :
  ReplaceAllFunc repl (b :: t) =
  match interPageLink_matchAt (b :: t) with
  | Some (m, rest) => repl m ++ ReplaceAllFunc repl rest
  | None => b :: ReplaceAllFunc repl t
  end.
Proof.
  simp ReplaceAllFunc.
  destruct (inspect (interPageLink_matchAt (b :: t))) as [[[m rest]|] E];
    simp ReplaceAllFunc; rewrite E; reflexivity.
Qed.

Lemma expandMatch_token name :
  expandMatch (token name) = bytes (anchor (gostring name)).
Proof.
  unfold expandMatch, token.
  replace (firstn _ (skipn 1 _)) with name; [reflexivity|].
  cbn [skipn length]. rewrite length_app. cbn [length].
  replace (S (length name + 1) - 1 - 1) with (length name) by lia.
  symmetry. apply take_app_length.
Qed.




Lemma no_token_cons b t :
  no_token (b :: t) -> interPageLink_matchAt (b :: t) = None /\ no_token t.
Proof.
  intros N. split.
  - destruct (interPageLink_matchAt (b :: t)) as [[m rest]|] eqn:E; [|reflexivity].
    exfalso. apply N.
    apply interPageLink_matchAt_sound in E as [name [Hal [-> E]]].
    exists [], name, rest. split; [exact Hal | exact E].
  - intros [pre [name [post [Hal ->]]]]. apply N.
    exists (b :: pre), name, post. split; [exact Hal | reflexivity].
Qed.

Lemma no_token_cons_intro b t :
  interPageLink_matchAt (b :: t) = None -> no_token t -> no_token (b :: t).
Proof.
  intros E N [pre [name [post [Hal Es]]]].
  destruct pre as [|c pre].
  - rewrite app_nil_l in Es. rewrite Es in E.
    rewrite (interPageLink_matchAt_token name post Hal) in E. discriminate.
  - injection Es as -> ->. apply N. exists pre, name, post. auto.
Qed.

(** Text without tokens is left as it is. *)
Lemma expandLinks_no_token s : no_token s -> expandLinks s = s.
Proof.
  induction s as [|b t IH]; intros N; [reflexivity|].
  apply no_token_cons in N as [E N].
  unfold expandLinks in *. rewrite ReplaceAllFunc_cons, E.
  f_equal. now apply IH.
Qed.



(** ** The page store *)

Lemma append_inv_tail (a b c : string) : a +:+ c = b +:+ c -> a = b.
Proof.
  intros E. apply bytes_inj. apply (f_equal bytes) in E.
  rewrite !bytes_app in E. now apply app_inv_tail in E.
Qed.

(** Distinct titles are stored in distinct files. *)
Lemma filename_inj (t u : string) : filename t = filename u -> t = u.
Proof.
  unfold filename. intros E. apply String.app_inj in E.
  now apply append_inv_tail in E.
Qed.

Lemma loadPage_present title fs data :
  files fs !! filename title = Some data ->
  loadPage title fs =
  (inl (mkPage title data (gostring (expandLinks data)) false false),
   logCall (SysReadFile (filename title)) fs).
Proof.
  intros E. unfold loadPage, bind, ReadFile. now rewrite E.
Qed.

Lemma loadPage_absent title fs :
  files fs !! filename title = None ->
  loadPage title fs =
  (inr (PathError "open" (filename title) ENOENT),
   logCall (SysReadFile (filename title)) fs).
Proof.
  intros E. unfold loadPage, bind, ReadFile. now rewrite E.
Qed.

(** The result of a load is a function of the one file it reads. *)
Lemma loadPage_frame title fs fs' :
  files fs' !! filename title = files fs !! filename title ->
  fst (loadPage title fs') = fst (loadPage title fs).
Proof.
  intros E. unfold loadPage, bind, ReadFile. rewrite E.
  now destruct (files fs !! filename title).
Qed.

Lemma loadPage_store title fs :
  snd (loadPage title fs) = logCall (SysReadFile (filename title)) fs.
Proof.
  unfold loadPage, bind, ReadFile.
  now destruct (files fs !! filename title).
Qed.

Lemma save_ok p fs fs1 :
  save p fs = (None, fs1) ->
  readOnly fs = false
  /\ fs1 = setFiles (<[filename (Title p) := Body p]> (files fs))
                    (logCall (SysWriteFile (filename (Title p)) (Body p) 384) fs).
Proof.
  unfold save, WriteFile. destruct (readOnly fs); [discriminate|].
  destruct (openFault fs (filename (Title p))); [discriminate|].
  intros [= <-]. auto.
Qed.

Lemma save_err p fs e fs1 :
  save p fs = (Some e, fs1) ->
  fs1 = logCall (SysWriteFile (filename (Title p)) (Body p) 384) fs.
Proof.
  unfold save, WriteFile. destruct (readOnly fs); [now intros [= _ <-]|].
  destruct (openFault fs (filename (Title p))); [now intros [= _ <-]|].
  discriminate.
Qed.

Lemma Remove_ok name fs fs1 :
  Remove name fs = (None, fs1) ->
  readOnly fs = false
  /\ fs1 = setFiles (delete name (files fs)) (logCall (SysRemove name) fs).
Proof.
  unfold Remove. destruct (files fs !! name); [|discriminate].
  destruct (readOnly fs); [discriminate|].
  intros [= <-]. auto.
Qed.

(** C1. Saving a page and then loading its title gives back the saved
    bytes: [save] stores [Body p] under data/<title>.txt as it is, and
    [loadPage] returns the contents of that file as the body. *)
Theorem save_load_roundtrip (p : Page) (fs fs1 : FileSystem) :
  ValidTitle (Title p) ->
  save p fs = (None, fs1) ->
  files fs1 !! ("data/" +:+ Title p +:+ ".txt") = Some (Body p)
  /\ exists p' fs2,
       loadPage (Title p) fs1 = (inl p', fs2)
       /\ Title p' = Title p /\ Body p' = Body p.
Proof.
  intros _ Hs. apply save_ok in Hs as [_ ->].
  assert (E : files (setFiles (<[filename (Title p) := Body p]> (files fs))
                (logCall (SysWriteFile (filename (Title p)) (Body p) 384) fs))
              !! filename (Title p) = Some (Body p)).
  { simpl. apply lookup_insert_eq. }
  split; [exact E|].
  eexists _, _. split; [apply loadPage_present; exact E|]. auto.
Qed.


(** ** Canonical paths *)

Lemma bytes_cons c s : bytes (String c s) = byte_of_ascii c :: bytes s.
Proof. reflexivity. Qed.

Lemma append_nil_r (s : string) : s +:+ "" = s.
Proof. induction s as [|c s IH]; simpl; [reflexivity | now rewrite IH]. Qed.

Lemma append_assoc (a b c : string) : (a +:+ b) +:+ c = a +:+ (b +:+ c).
Proof. induction a as [|x a IH]; simpl; [reflexivity | now rewrite IH]. Qed.

Lemma prefix_append (a b : string) :
  String.prefix a b = true -> exists rest, b = a +:+ rest.
Proof.
  revert b. induction a as [|c a IH]; intros b; simpl.
  - intros _. now exists b.
  - destruct b as [|d b]; [discriminate|]. simpl.
    destruct (ascii_dec c d) as [<-|]; [|discriminate].
    intros E. apply IH in E as [rest ->]. now exists rest.
Qed.

(** An alphanumeric character is neither a slash nor a dot. *)
Lemma alnum_ascii c :
  alnum (byte_of_ascii c) = true ->
  Ascii.eqb c "/" = false /\ Ascii.eqb c "." = false.
Proof.
  destruct c as [[] [] [] [] [] [] [] []]; vm_compute; intuition congruence.
Qed.

Lemma noSlash_alnum s : forallb alnum (bytes s) = true -> noSlash s = true.
Proof.
  induction s as [|c s IH]; [reflexivity|].
  rewrite bytes_cons. simpl. intros E. apply andb_prop in E as [Ec Es].
  apply alnum_ascii in Ec as [-> _]. now rewrite (IH Es).
Qed.

Lemma splitSlash_noSlash s : noSlash s = true -> splitSlash s = [s].
Proof.
  induction s as [|c s IH]; [reflexivity|].
  simpl. intros E. apply andb_prop in E as [Ec Es].
  destruct (Ascii.eqb c "/"); [discriminate|]. now rewrite (IH Es).
Qed.

Lemma splitSlash_app_slash a b :
  noSlash a = true ->
  splitSlash (a +:+ String "/" b) = a :: splitSlash b.
Proof.
  induction a as [|c a IH]; [reflexivity|].
  simpl. intros E. apply andb_prop in E as [Ec Es].
  destruct (Ascii.eqb c "/"); [discriminate|]. now rewrite (IH Es).
Qed.

Lemma endsWithSlash_cons c s :
  s <> "" -> endsWithSlash (String c s) = endsWithSlash s.
Proof. destruct s; [contradiction | reflexivity]. Qed.

Lemma endsWithSlash_app a b :
  b <> "" -> endsWithSlash (a +:+ b) = endsWithSlash b.
Proof.
  intros Hb. induction a as [|c a IH]; [reflexivity|].
  simpl append. rewrite endsWithSlash_cons; [exact IH|].
  destruct a; [exact Hb | discriminate].
Qed.

Lemma endsWithSlash_alnum s :
  s <> "" -> forallb alnum (bytes s) = true -> endsWithSlash s = false.
Proof.
  induction s as [|c s IH]; [contradiction|].
  intros _. rewrite bytes_cons. simpl forallb. intros E.
  apply andb_prop in E as [Ec Es].
  apply alnum_ascii in Ec as [Ec _].
  destruct s as [|d s]; [exact Ec|].
  rewrite endsWithSlash_cons by discriminate.
  apply IH; [discriminate | exact Es].
Qed.

(** A path of two plain elements is canonical. *)
Lemma cleanPath_two (a b : string) :
  noSlash a = true -> noSlash b = true ->
  String.eqb a "" || String.eqb a "." = false -> String.eqb a ".." = false ->
  String.eqb b "" || String.eqb b "." = false -> String.eqb b ".." = false ->
  endsWithSlash b = false ->
  cleanPath ("/" +:+ a +:+ "/" +:+ b) = "/" +:+ a +:+ "/" +:+ b.
Proof.
  intros Na Nb A1 A2 B1 B2 Eb.
  assert (Hb : b <> "").
  { intros ->. simpl in B1. discriminate. }
  change ("/" +:+ a +:+ "/" +:+ b) with (String "/" (a +:+ String "/" b)).
  unfold cleanPath.
  change (Ascii.eqb "/" "/") with true. cbv iota.
  change (String "/" (a +:+ String "/" b)) with ("/" +:+ a +:+ String "/" b) at 1.
  rewrite (endsWithSlash_app "/" (a +:+ String "/" b))
    by (destruct a; discriminate).
  rewrite (endsWithSlash_app a (String "/" b)) by discriminate.
  rewrite endsWithSlash_cons, Eb by exact Hb.
  cbv iota beta. rewrite andb_false_l.
  unfold path_Clean. cbn [splitSlash].
  change (Ascii.eqb "/" "/") with true. cbv iota.
  rewrite (splitSlash_app_slash a b Na), (splitSlash_noSlash b Nb).
  cbn [cleanSegs].
  change (String.eqb "" "" || String.eqb "" ".") with true. cbv iota.
  rewrite A1, A2, B1, B2. cbn [rev app joinSegs].
  now rewrite append_nil_r.
Qed.

Lemma ValidTitle_regular title :
  ValidTitle title ->
  noSlash title = true
  /\ String.eqb title "" || String.eqb title "." = false
  /\ String.eqb title ".." = false
  /\ endsWithSlash title = false.
Proof.
  intros [Hne Hal].
  split; [now apply noSlash_alnum|].
  pose proof (endsWithSlash_alnum title Hne Hal) as He.
  destruct title as [|c s]; [contradiction|].
  rewrite bytes_cons in Hal. simpl forallb in Hal.
  apply andb_prop in Hal as [Hc _]. apply alnum_ascii in Hc as [_ Hc].
  simpl. rewrite Hc. auto.
Qed.

Lemma cleanPath_valid path op title :
  ValidRoute path op title -> cleanPath path = path.
Proof.
  intros [Hin [V ->]].
  apply ValidTitle_regular in V as [N [R1 [R2 E]]].
  simpl in Hin.
  destruct Hin as [<-|[<-|[<-|[<-|[]]]]]; now apply cleanPath_two.
Qed.

(** ** The mux of [main] *)

Section MuxOfMain.

Context {H : Type}.
Variables h0 hView hEdit hSave hDelete : H.

(** The lemmas hold whatever the five handlers are. *)

Lemma mux_match_view rest :
  mux_match (patterns h0 hView hEdit hSave hDelete) ("/view/" +:+ rest) = Some ("/view/", hView).
Proof. destruct rest; reflexivity. Qed.

Lemma mux_match_edit rest :
  mux_match (patterns h0 hView hEdit hSave hDelete) ("/edit/" +:+ rest) = Some ("/edit/", hEdit).
Proof. destruct rest; reflexivity. Qed.

Lemma mux_match_save rest :
  mux_match (patterns h0 hView hEdit hSave hDelete) ("/save/" +:+ rest) = Some ("/save/", hSave).
Proof. destruct rest; reflexivity. Qed.

Lemma mux_match_delete rest :
  mux_match (patterns h0 hView hEdit hSave hDelete) ("/delete/" +:+ rest) = Some ("/delete/", hDelete).
Proof. destruct rest; reflexivity. Qed.

Lemma eqb_prefix (a b : string) :
  String.prefix a b = false -> String.eqb a b = false.
Proof.
  intros P. destruct (String.eqb a b) eqn:E; [|reflexivity].
  apply String.eqb_eq in E; subst b.
  assert (X : String.prefix a a = true).
  { clear P. induction a as [|c a IH]; simpl; [reflexivity|].
    destruct (ascii_dec c c); [exact IH | contradiction]. }
  congruence.
Qed.

(** A rooted path outside the four subtrees goes to the handler of the
    root pattern. *)
Lemma mux_match_root rest :
  (forall op tail, In op validPath_ops ->
     String "/" rest <> "/" +:+ op +:+ "/" +:+ tail) ->
  mux_match (patterns h0 hView hEdit hSave hDelete) (String "/" rest) = Some ("/", h0).
Proof.
  intros Hout.
  assert (P : forall op, In op validPath_ops ->
            String.prefix ("/" +:+ op +:+ "/") (String "/" rest) = false).
  { intros op Hin.
    destruct (String.prefix ("/" +:+ op +:+ "/") (String "/" rest)) eqn:E;
      [|reflexivity].
    apply prefix_append in E as [tail E]. exfalso.
    apply (Hout op tail Hin). rewrite E. simpl. now rewrite !append_assoc. }
  pose proof (P "view" ltac:(simpl; tauto)) as Pv.
  pose proof (P "edit" ltac:(simpl; tauto)) as Pe.
  pose proof (P "save" ltac:(simpl; tauto)) as Ps.
  pose proof (P "delete" ltac:(simpl; tauto)) as Pd.
  change ("/" +:+ "view" +:+ "/") with "/view/" in Pv.
  change ("/" +:+ "edit" +:+ "/") with "/edit/" in Pe.
  change ("/" +:+ "save" +:+ "/") with "/save/" in Ps.
  change ("/" +:+ "delete" +:+ "/") with "/delete/" in Pd.
  unfold mux_match, patterns. cbn [find List.filter fst endsWithSlash].
  change (Ascii.eqb "/" "/") with true. cbn [andb].
  rewrite (eqb_prefix _ _ Pv), (eqb_prefix _ _ Pe), (eqb_prefix _ _ Ps),
    (eqb_prefix _ _ Pd), Pv, Pe, Ps, Pd.
  destruct rest; reflexivity.
Qed.

Lemma shouldRedirect_valid path op title :
  ValidRoute path op title -> shouldRedirect (patterns h0 hView hEdit hSave hDelete) path = false.
Proof.
  intros [Hin [[Hne _] ->]].
  destruct title as [|c s]; [contradiction|].
  simpl in Hin.
  destruct Hin as [<-|[<-|[<-|[<-|[]]]]]; reflexivity.
Qed.

Lemma mux_redirect_valid r op title :
  ValidRoute (URL_Path r) op title -> mux_redirect (patterns h0 hView hEdit hSave hDelete) r = None.
Proof.
  intros V. unfold mux_redirect.
  rewrite (cleanPath_valid _ _ _ V), (shouldRedirect_valid _ _ _ V).
  rewrite String.eqb_refl. simpl. now destruct (String.eqb (Method r) "CONNECT").
Qed.

End MuxOfMain.

(** ** The response writer *)

Ltac run_writer :=
  unfold http_NotFound, http_Error, http_Redirect, finishRequest, Fprintln, Write,
    bind, Header_Del, Header_Set, WriteHeader, modify, ret;
  cbn -[insert delete lookup append].

Lemma http_Error_fresh msg code w0 :
  wroteHeader w0 = false ->
  http_Error msg code w0 =
  (tt, let h := <["X-Content-Type-Options" := "nosniff"]>
                  (<["Content-Type" := "text/plain; charset=utf-8"]>
                     (delete "Content-Length" (header w0))) in
       mkW h true code h (body w0 +:+ msg +:+ nl) (errorLog w0)).
Proof.
  destruct w0 as [h wh st sh b el]. simpl. intros ->. run_writer. reflexivity.
Qed.

(** A redirect issued after the status line went out changes neither the
    status nor the header that was sent; it sets Location in the header map
    of the handler and leaves a line in the error log. *)
Lemma http_Redirect_written r url code w0 :
  wroteHeader w0 = true ->
  is_Some (header w0 !! "Content-Type") ->
  http_Redirect r url code w0 =
  (tt, mkW (<["Location" := url]> (header w0)) true (status w0) (sentHeader w0)
           (body w0)
           (errorLog w0 ++ ["http: superfluous response.WriteHeader call"])).
Proof.
  destruct w0 as [h wh st sh b el]. simpl. intros -> [ct Hct].
  run_writer. rewrite Hct. reflexivity.
Qed.

Lemma http_Redirect_fresh r url code w0 :
  wroteHeader w0 = false ->
  let w' := snd (http_Redirect r url code w0) in
  wroteHeader w' = true /\ status w' = code
  /\ sentHeader w' !! "Location" = Some url /\ errorLog w' = errorLog w0.
Proof.
  destruct w0 as [h wh st sh b el]. simpl. intros ->. run_writer.
  destruct (h !! "Content-Type"), (String.eqb (Method r) "GET"),
    (String.eqb (Method r) "HEAD");
    cbn -[insert delete lookup append];
    repeat split; try reflexivity;
    first [ now rewrite lookup_insert_eq
          | rewrite lookup_insert_ne by discriminate; now rewrite lookup_insert_eq ].
Qed.

Lemma finishRequest_written w0 :
  wroteHeader w0 = true -> finishRequest w0 = (tt, w0).
Proof. intros E. unfold finishRequest. now rewrite E. Qed.

(** ** Running a handler *)

Lemma onW_eq {A} (m : ST ResponseWriter A) s :
  onW m s = (fst (m (resp s)), mkServer (snd (m (resp s))) (store s)).
Proof. unfold onW. now destruct (m (resp s)). Qed.

Lemma onFS_eq {A} (m : ST FileSystem A) s :
  onFS m s = (fst (m (store s)), mkServer (resp s) (snd (m (store s)))).
Proof. unfold onFS. now destruct (m (store s)). Qed.

Lemma run_eq (h : ST Server unit) fs :
  run h fs =
  mkServer (snd (finishRequest (resp (snd (h (mkServer newResponseWriter fs))))))
           (store (snd (h (mkServer newResponseWriter fs)))).
Proof.
  unfold run, bind. destruct (h (mkServer newResponseWriter fs)) as [[] s].
  now rewrite onW_eq.
Qed.

Lemma onFS_loadPage title s :
  onFS (loadPage title) s =
  (fst (loadPage title (store s)),
   mkServer (resp s) (logCall (SysReadFile (filename title)) (store s))).
Proof. now rewrite onFS_eq, loadPage_store. Qed.

Section Serving.

Variable templates : string -> Page -> list string * option string.

Lemma renderTemplate_store tmpl p s :
  store (snd (renderTemplate templates tmpl p s)) = store s.
Proof.
  unfold renderTemplate. destruct (templates (tmpl +:+ ".html") p) as [chunks err].
  unfold bind. rewrite onW_eq. destruct err; [now rewrite onW_eq | reflexivity].
Qed.

(** The view handler makes one call to the store, a read. *)
Lemma viewHandler_store r title s :
  store (snd (viewHandler templates r title s)) =
  logCall (SysReadFile (filename title)) (store s).
Proof.
  unfold viewHandler, bind. rewrite onFS_loadPage.
  destruct (fst (loadPage title (store s))).
  - now rewrite renderTemplate_store.
  - now rewrite onW_eq.
Qed.

(** So does the edit handler, whether the page exists or not. *)
Lemma editHandler_store r title s :
  store (snd (editHandler templates r title s)) =
  logCall (SysReadFile (filename title)) (store s).
Proof.
  unfold editHandler, bind. rewrite onFS_loadPage.
  now rewrite renderTemplate_store.
Qed.

Lemma viewHandler_absent r title s :
  files (store s) !! filename title = None ->
  viewHandler templates r title s =
  onW (http_Redirect r ("/edit/" +:+ title) StatusFound)
      (mkServer (resp s) (logCall (SysReadFile (filename title)) (store s))).
Proof.
  intros E. unfold viewHandler, bind.
  rewrite onFS_loadPage, (loadPage_absent _ _ E). reflexivity.
Qed.

Lemma saveHandler_not_POST r title s :
  Method r <> "POST" ->
  saveHandler r title s =
  onW (http_Error "400 - Bad method type" StatusBadRequest) s.
Proof.
  intros N. unfold saveHandler, MethodPost.
  destruct (String.eqb (Method r) "POST") eqn:E; [|reflexivity].
  apply String.eqb_eq in E. contradiction.
Qed.

Lemma saveHandler_POST r title s :
  Method r = "POST" ->
  saveHandler r title s =
  (let pg := mkPage title (bytes (FormValue r "body")) "" false false in
   err <- onFS (save pg) ;;
   match err with
   | Some e => onW (http_Error (Error e) StatusInternalServerError)
   | None =>
       onW (http_Redirect r ("/view/" +:+ title +:+ "?from_save=true") StatusFound)
   end) s.
Proof.
  intros E. unfold saveHandler, MethodPost. rewrite E. reflexivity.
Qed.

Lemma deleteHandler_not_POST r title s :
  Method r <> "POST" ->
  deleteHandler r title s =
  onW (http_Error "400 - Bad method type" StatusBadRequest) s.
Proof.
  intros N. unfold deleteHandler, MethodPost.
  destruct (String.eqb (Method r) "POST") eqn:E; [|reflexivity].
  apply String.eqb_eq in E. contradiction.
Qed.

Lemma deleteHandler_absent r title s :
  Method r = "POST" ->
  files (store s) !! filename title = None ->
  deleteHandler r title s =
  onW (http_Error "404 - Page not found" StatusNotFound)
      (mkServer (resp s) (logCall (SysReadFile (filename title)) (store s))).
Proof.
  intros Em E. unfold deleteHandler, MethodPost, bind. rewrite Em.
  change (String.eqb "POST" "POST") with true. cbn [negb].
  rewrite onFS_loadPage, (loadPage_absent _ _ E). reflexivity.
Qed.

Lemma deleteHandler_present r title s data :
  Method r = "POST" ->
  files (store s) !! filename title = Some data ->
  deleteHandler r title s =
  (err <- onFS (Remove (filename title)) ;;
   match err with
   | Some e => onW (http_Error (Error e) StatusInternalServerError)
   | None => ret tt
   end ;;
   onW (http_Redirect r "/view/FrontPage?from_delete=true" StatusFound))
    (mkServer (resp s) (logCall (SysReadFile (filename title)) (store s))).
Proof.
  intros Em E. unfold deleteHandler, MethodPost. rewrite Em.
  change (String.eqb "POST" "POST") with true. cbn [negb].
  unfold bind at 1. rewrite onFS_loadPage, (loadPage_present _ _ _ E).
  reflexivity.
Qed.

Lemma makeHandler_valid fn r op title :
  ValidRoute (URL_Path r) op title -> makeHandler fn r = fn r title.
Proof.
  intros V. unfold makeHandler.
  now rewrite (FindStringSubmatch_complete _ _ _ V).
Qed.

Lemma makeHandler_invalid fn r :
  (~ exists op title, ValidRoute (URL_Path r) op title) ->
  makeHandler fn r = onW http_NotFound.
Proof.
  intros N. unfold makeHandler.
  destruct (FindStringSubmatch (URL_Path r)) as [m|] eqn:E; [|reflexivity].
  exfalso. apply N.
  apply FindStringSubmatch_sound in E as [op [title [V _]]]. eauto.
Qed.

(** A request whose path is a valid route reaches the handler of its
    operation, with the title of the path. *)
Lemma ServeHTTP_valid r fs op title :
  ValidRoute (URL_Path r) op title ->
  ServeHTTP templates r fs = Served (run (handlerOf templates op r title) fs).
Proof.
  intros V. unfold ServeHTTP, routes.
  rewrite (mux_redirect_valid _ _ _ _ _ r op title V).
  unfold mux_Handler, routes.
  pose proof V as [Hin [_ Ep]]. rewrite Ep. simpl in Hin.
  destruct Hin as [<-|[<-|[<-|[<-|[]]]]].
  - change ("/" +:+ "edit" +:+ "/" +:+ title) with ("/edit/" +:+ title).
    rewrite mux_match_edit, (makeHandler_valid _ _ _ _ V). reflexivity.
  - change ("/" +:+ "save" +:+ "/" +:+ title) with ("/save/" +:+ title).
    rewrite mux_match_save, (makeHandler_valid _ _ _ _ V). reflexivity.
  - change ("/" +:+ "view" +:+ "/" +:+ title) with ("/view/" +:+ title).
    rewrite mux_match_view, (makeHandler_valid _ _ _ _ V). reflexivity.
  - change ("/" +:+ "delete" +:+ "/" +:+ title) with ("/delete/" +:+ title).
    rewrite mux_match_delete, (makeHandler_valid _ _ _ _ V). reflexivity.
Qed.

End Serving.

(** ** Responses of the handlers *)

Lemma run_Error (h : ST Server unit) fs fs' msg code :
  h (mkServer newResponseWriter fs) =
  onW (http_Error msg code) (mkServer newResponseWriter fs') ->
  run h fs = mkServer (snd (http_Error msg code newResponseWriter)) fs'.
Proof.
  intros E. rewrite run_eq, E, onW_eq. cbn [snd resp store].
  rewrite http_Error_fresh by reflexivity. reflexivity.
Qed.

Lemma run_Redirect (h : ST Server unit) fs fs' r url code :
  h (mkServer newResponseWriter fs) =
  onW (http_Redirect r url code) (mkServer newResponseWriter fs') ->
  run h fs = mkServer (snd (http_Redirect r url code newResponseWriter)) fs'.
Proof.
  intros E. rewrite run_eq, E, onW_eq. cbn [snd resp store].
  destruct (http_Redirect_fresh r url code newResponseWriter eq_refl) as [W _].
  now rewrite (finishRequest_written _ W).
Qed.

(** What a POST to the save handler does, by the result of [save]. *)
Lemma run_save_ok r title fs fs1 :
  Method r = "POST" ->
  save (mkPage title (bytes (FormValue r "body")) "" false false) fs = (None, fs1) ->
  run (saveHandler r title) fs =
  mkServer (snd (http_Redirect r ("/view/" +:+ title +:+ "?from_save=true")
                   StatusFound newResponseWriter)) fs1.
Proof.
  intros Em Es. apply run_Redirect.
  rewrite (saveHandler_POST r title _ Em). unfold bind.
  rewrite onFS_eq. cbn [store resp]. rewrite Es. reflexivity.
Qed.

Lemma run_save_err r title fs e fs1 :
  Method r = "POST" ->
  save (mkPage title (bytes (FormValue r "body")) "" false false) fs = (Some e, fs1) ->
  run (saveHandler r title) fs =
  mkServer (snd (http_Error (Error e) StatusInternalServerError newResponseWriter)) fs1.
Proof.
  intros Em Es. apply run_Error.
  rewrite (saveHandler_POST r title _ Em). unfold bind.
  rewrite onFS_eq. cbn [store resp]. rewrite Es. reflexivity.
Qed.

Lemma Error_status msg code :
  status (snd (http_Error msg code newResponseWriter)) = code.
Proof. reflexivity. Qed.

Lemma Error_body msg code :
  body (snd (http_Error msg code newResponseWriter)) = msg +:+ nl.
Proof. reflexivity. Qed.

Lemma Redirect_status r url code :
  status (snd (http_Redirect r url code newResponseWriter)) = code.
Proof. apply (http_Redirect_fresh r url code newResponseWriter eq_refl). Qed.

Lemma Redirect_Location r url code :
  sentHeader (snd (http_Redirect r url code newResponseWriter)) !! "Location"
  = Some url.
Proof. apply (http_Redirect_fresh r url code newResponseWriter eq_refl). Qed.

Lemma ValidRoute_intro op title :
  In op validPath_ops -> ValidTitle title ->
  ValidRoute ("/" +:+ op +:+ "/" +:+ title) op title.
Proof. intros Hin V. split; [exact Hin|]. split; [exact V | reflexivity]. Qed.

Section Claims.

Variable templates : string -> Page -> list string * option string.

(** C5. A GET of /view/<title> for a title whose file does not exist is
    answered with a 302 to /edit/<title>.  The response is the redirect
    with its short note for a body and nothing else, whatever the
    templates are, and the store is only read. *)
Theorem view_missing_redirects_to_edit (r : Request) (fs : FileSystem) (title : string) :
  Method r = "GET" ->
  ValidTitle title ->
  URL_Path r = "/view/" +:+ title ->
  files fs !! ("data/" +:+ title +:+ ".txt") = None ->
  exists s,
    ServeHTTP templates r fs = Served s
    /\ status (resp s) = 302
    /\ sentHeader (resp s) !! "Location" = Some ("/edit/" +:+ title)
    /\ resp s = snd (http_Redirect r ("/edit/" +:+ title) StatusFound newResponseWriter)
    /\ body (resp s) =
       "<a href=" +:+ dq +:+ htmlEscape ("/edit/" +:+ title) +:+ dq +:+ ">Found</a>."
       +:+ nl +:+ nl
    /\ files (store s) = files fs
    /\ trace (store s) = trace fs ++ [SysReadFile ("data/" +:+ title +:+ ".txt")].
Proof.
  intros Em V Ep Ef.
  assert (R : ValidRoute (URL_Path r) "view" title).
  { rewrite Ep. apply (ValidRoute_intro "view"); [simpl; tauto | exact V]. }
  rewrite (ServeHTTP_valid templates r fs _ _ R).
  change (handlerOf templates "view") with (viewHandler templates).
  rewrite (run_Redirect _ fs (logCall (SysReadFile (filename title)) fs) r
             ("/edit/" +:+ title) StatusFound)
    by (now apply viewHandler_absent).
  eexists. split; [reflexivity|]. cbn [resp store].
  split; [apply Redirect_status|].
  split; [apply Redirect_Location|].
  split; [reflexivity|].
  split; [|split; reflexivity].
  unfold http_Redirect. rewrite Em.
  change (header newResponseWriter !! "Content-Type") with (@None string).
  run_writer. rewrite !append_assoc. reflexivity.
Qed.

(** C6. A request to /save/<title> whose method is not POST is answered
    with a 400 and makes no call to the store at all; a POST whose save
    returns no error is what puts the submitted body in the file. *)
Theorem save_rejects_other_methods (r : Request) (fs : FileSystem) (title : string) :
  ValidTitle title ->
  URL_Path r = "/save/" +:+ title ->
  (Method r <> "POST" ->
   exists s,
     ServeHTTP templates r fs = Served s
     /\ status (resp s) = 400
     /\ body (resp s) = "400 - Bad method type" +:+ nl
     /\ store s = fs)
  /\ (Method r = "POST" ->
      fst (save (mkPage title (bytes (FormValue r "body")) "" false false) fs) = None ->
      exists s,
        ServeHTTP templates r fs = Served s
        /\ status (resp s) = 302
        /\ files (store s) =
           <["data/" +:+ title +:+ ".txt" := bytes (FormValue r "body")]> (files fs)).
Proof.
  intros V Ep.
  assert (R : ValidRoute (URL_Path r) "save" title).
  { rewrite Ep. apply (ValidRoute_intro "save"); [simpl; tauto | exact V]. }
  rewrite (ServeHTTP_valid templates r fs _ _ R).
  change (handlerOf templates "save") with saveHandler.
  split.
  - intros N.
    rewrite (run_Error _ fs fs "400 - Bad method type" StatusBadRequest)
      by (now apply saveHandler_not_POST).
    eexists. split; [reflexivity|]. repeat split; reflexivity.
  - intros Em Es.
    destruct (save (mkPage title (bytes (FormValue r "body")) "" false false) fs)
      as [e fs1] eqn:E.
    cbn [fst] in Es. subst e.
    rewrite (run_save_ok r title fs fs1 Em E).
    apply save_ok in E as [_ ->].
    eexists. split; [reflexivity|]. cbn [resp store].
    split; [apply Redirect_status | reflexivity].
Qed.

(** C8. A delete request for a title whose file does not exist is
    answered with a 404; the only call to the store is the read of
    [loadPage], so no removal is attempted. *)
Theorem delete_missing_is_not_found (r : Request) (fs : FileSystem) (title : string) :
  Method r = "POST" ->
  ValidTitle title ->
  URL_Path r = "/delete/" +:+ title ->
  files fs !! ("data/" +:+ title +:+ ".txt") = None ->
  exists s,
    ServeHTTP templates r fs = Served s
    /\ status (resp s) = 404
    /\ body (resp s) = "404 - Page not found" +:+ nl
    /\ files (store s) = files fs
    /\ trace (store s) = trace fs ++ [SysReadFile ("data/" +:+ title +:+ ".txt")].
Proof.
  intros Em V Ep Ef.
  assert (R : ValidRoute (URL_Path r) "delete" title).
  { rewrite Ep. apply (ValidRoute_intro "delete"); [simpl; tauto | exact V]. }
  rewrite (ServeHTTP_valid templates r fs _ _ R).
  change (handlerOf templates "delete") with deleteHandler.
  rewrite (run_Error _ fs (logCall (SysReadFile (filename title)) fs)
             "404 - Page not found" StatusNotFound)
    by (now apply deleteHandler_absent).
  eexists. split; [reflexivity|]. repeat split; reflexivity.
Qed.

Lemma run_delete_read_only r fs title data :
  Method r = "POST" ->
  files fs !! filename title = Some data ->
  readOnly fs = true ->
  run (deleteHandler r title) fs =
  mkServer
    (mkW (<["Location" := "/view/FrontPage?from_delete=true"]> errorHeader)
         true StatusInternalServerError errorHeader
         (Error (PathError "remove" (filename title) EROFS) +:+ nl)
         ["http: superfluous response.WriteHeader call"])
    (logCall (SysRemove (filename title))
       (logCall (SysReadFile (filename title)) fs)).
Proof.
  intros Em Ef Ero.
  rewrite run_eq,
    (deleteHandler_present r title (mkServer newResponseWriter fs) data Em Ef).
  unfold bind. rewrite onFS_eq. unfold Remove.
  cbn [store resp files readOnly logCall fst snd]. rewrite Ef, Ero.
  cbn [fst snd]. rewrite onW_eq. cbn [fst snd resp store].
  rewrite onW_eq. cbn [fst snd resp store].
  rewrite http_Error_fresh by reflexivity. cbn [snd].
  rewrite http_Redirect_written.
  - reflexivity.
  - reflexivity.
  - eexists. cbn [header newResponseWriter].
    rewrite lookup_insert_ne by discriminate. apply lookup_insert_eq.
Qed.

Lemma run_delete_writable r fs title data :
  Method r = "POST" ->
  files fs !! filename title = Some data ->
  readOnly fs = false ->
  run (deleteHandler r title) fs =
  mkServer
    (snd (http_Redirect r "/view/FrontPage?from_delete=true" StatusFound
            newResponseWriter))
    (setFiles (delete (filename title) (files fs))
       (logCall (SysRemove (filename title))
          (logCall (SysReadFile (filename title)) fs))).
Proof.
  intros Em Ef Ew.
  apply run_Redirect.
  rewrite (deleteHandler_present r title (mkServer newResponseWriter fs) data Em Ef).
  unfold bind. rewrite onFS_eq. unfold Remove.
  cbn [store resp files readOnly logCall fst snd]. rewrite Ef, Ew.
  reflexivity.
Qed.

(** C4. A POST to /delete/<title> for a page that exists.  When the
    removal returns an error, the response is a 500 whose body is the text
    of that error, no Location header goes out, and the files are as they
    were.  When it returns none, the response is the 302 to
    /view/FrontPage?from_delete=true and the file is gone.  So the 302 is
    the response only when the removal succeeded. *)
Theorem delete_failure_is_500_redirect_only_on_success
    (r : Request) (fs : FileSystem) (title : string) (data : list byte) :
  Method r = "POST" ->
  ValidTitle title ->
  URL_Path r = "/delete/" +:+ title ->
  files fs !! ("data/" +:+ title +:+ ".txt") = Some data ->
  exists s,
    ServeHTTP templates r fs = Served s
    /\ (forall e,
          fst (Remove ("data/" +:+ title +:+ ".txt")
                 (logCall (SysReadFile ("data/" +:+ title +:+ ".txt")) fs)) = Some e ->
          status (resp s) = 500
          /\ body (resp s) = Error e +:+ nl
          /\ sentHeader (resp s) !! "Location" = None
          /\ files (store s) = files fs)
    /\ (fst (Remove ("data/" +:+ title +:+ ".txt")
               (logCall (SysReadFile ("data/" +:+ title +:+ ".txt")) fs)) = None ->
        status (resp s) = 302
        /\ sentHeader (resp s) !! "Location" = Some "/view/FrontPage?from_delete=true"
        /\ files (store s) = delete ("data/" +:+ title +:+ ".txt") (files fs))
    /\ (status (resp s) = 302 ->
        fst (Remove ("data/" +:+ title +:+ ".txt")
               (logCall (SysReadFile ("data/" +:+ title +:+ ".txt")) fs)) = None).
Proof.
  intros Em V Ep Ef.
  assert (R : ValidRoute (URL_Path r) "delete" title).
  { rewrite Ep. apply (ValidRoute_intro "delete"); [simpl; tauto | exact V]. }
  rewrite (ServeHTTP_valid templates r fs _ _ R).
  change (handlerOf templates "delete") with deleteHandler.
  unfold Remove. cbn [files readOnly logCall]. rewrite Ef.
  destruct (readOnly fs) eqn:Ero; cbn [fst].
  - rewrite (run_delete_read_only r fs title data Em Ef Ero).
    eexists. split; [reflexivity|].
    cbn [resp store status body sentHeader files logCall].
    split; [|split; [discriminate | discriminate]].
    intros e [= <-].
    split; [reflexivity|]. split; [reflexivity|]. split; [|reflexivity].
    unfold errorHeader. rewrite !lookup_insert_ne by discriminate.
    rewrite lookup_delete_ne by discriminate. apply lookup_empty.
  - rewrite (run_delete_writable r fs title data Em Ef Ero).
    eexists. split; [reflexivity|]. cbn [resp store].
    split; [discriminate|]. split; [|reflexivity].
    intros _. split; [apply Redirect_status|].
    split; [apply Redirect_Location | reflexivity].
Qed.

(** X18. The branch of the delete handler for a removal that failed has no
    return.  On a read-only store where the page exists, after the 500 with
    the error text went out, the handler goes on to the redirect, which
    sets Location in its header map and calls WriteHeader(302), a call the
    server logs as superfluous.  The response that went out is not changed
    by it: the status stays 500 and carries no Location. *)
Theorem delete_failure_falls_through_to_redirect
    (r : Request) (fs : FileSystem) (title : string) (data : list byte) :
  Method r = "POST" ->
  ValidTitle title ->
  URL_Path r = "/delete/" +:+ title ->
  files fs !! ("data/" +:+ title +:+ ".txt") = Some data ->
  readOnly fs = true ->
  exists s,
    ServeHTTP templates r fs = Served s
    /\ status (resp s) = 500
    /\ body (resp s) =
       "remove data/" +:+ title +:+ ".txt: read-only file system" +:+ nl
    /\ sentHeader (resp s) !! "Location" = None
    /\ header (resp s) !! "Location" = Some "/view/FrontPage?from_delete=true"
    /\ errorLog (resp s) = ["http: superfluous response.WriteHeader call"]
    /\ files (store s) = files fs.
Proof.
  intros Em V Ep Ef Ero.
  assert (R : ValidRoute (URL_Path r) "delete" title).
  { rewrite Ep. apply (ValidRoute_intro "delete"); [simpl; tauto | exact V]. }
  rewrite (ServeHTTP_valid templates r fs _ _ R).
  change (handlerOf templates "delete") with deleteHandler.
  rewrite (run_delete_read_only r fs title data Em Ef Ero).
  eexists. split; [reflexivity|]. cbn [resp store status body sentHeader header errorLog].
  split; [reflexivity|].
  split.
  { unfold Error, filename. cbn [Op Path Err errno_Error].
    simpl. now rewrite !append_assoc. }
  split.
  { unfold errorHeader. rewrite !lookup_insert_ne by discriminate.
    rewrite lookup_delete_ne by discriminate. apply lookup_empty. }
  split; [apply lookup_insert_eq|].
  split; reflexivity.
Qed.

(** C7. After a delete that succeeded, loading the same title fails with
    the error for a file that does not exist, and no page is returned.
    The first part is about [os.Remove], the second about a delete request
    that was answered with the 302. *)
Theorem delete_then_load_not_found (title : string) :
  ValidTitle title ->
  (forall fs fs1,
     Remove ("data/" +:+ title +:+ ".txt") fs = (None, fs1) ->
     fst (loadPage title fs1)
     = inr (PathError "open" ("data/" +:+ title +:+ ".txt") ENOENT))
  /\ (forall r fs s,
        URL_Path r = "/delete/" +:+ title ->
        ServeHTTP templates r fs = Served s ->
        status (resp s) = 302 ->
        fst (loadPage title (store s))
        = inr (PathError "open" ("data/" +:+ title +:+ ".txt") ENOENT)).
Proof.
  intros V. split.
  - intros fs fs1 E. apply Remove_ok in E as [_ ->].
    rewrite loadPage_absent; [reflexivity|].
    cbn [files setFiles]. apply lookup_delete_eq.
  - intros r fs s Ep Es St.
    assert (R : ValidRoute (URL_Path r) "delete" title).
    { rewrite Ep. apply (ValidRoute_intro "delete"); [simpl; tauto | exact V]. }
    rewrite (ServeHTTP_valid templates r fs _ _ R) in Es.
    change (handlerOf templates "delete") with deleteHandler in Es.
    injection Es as <-.
    destruct (String.eqb (Method r) "POST") eqn:Em.
    + apply String.eqb_eq in Em.
      destruct (files fs !! filename title) as [data|] eqn:Ef.
      * destruct (readOnly fs) eqn:Ero.
        -- rewrite (run_delete_read_only r fs title data Em Ef Ero) in St.
           discriminate St.
        -- rewrite (run_delete_writable r fs title data Em Ef Ero).
           cbn [store]. rewrite loadPage_absent; [reflexivity|].
           cbn [files setFiles]. apply lookup_delete_eq.
      * rewrite (run_Error _ fs (logCall (SysReadFile (filename title)) fs)
                   "404 - Page not found" StatusNotFound) in St
          by (now apply deleteHandler_absent).
        discriminate St.
    + rewrite (run_Error _ fs fs "400 - Bad method type" StatusBadRequest) in St.
      * discriminate St.
      * apply deleteHandler_not_POST. intros E. rewrite E in Em. discriminate.
Qed.

Lemma saveHandler_files r title s name :
  name <> filename title ->
  files (store (snd (saveHandler r title s))) !! name = files (store s) !! name.
Proof.
  intros N. unfold saveHandler.
  destruct (negb (String.eqb (Method r) MethodPost)); [now rewrite onW_eq|].
  unfold bind. rewrite onFS_eq. unfold save, WriteFile.
  cbn [Title Body].
  destruct (readOnly (store s));
    [|destruct (openFault (store s) (filename title))]; cbn [fst snd];
    rewrite onW_eq; cbn [snd store files logCall setFiles]; try reflexivity.
  apply lookup_insert_ne. congruence.
Qed.

Lemma deleteHandler_files r title s name :
  name <> filename title ->
  files (store (snd (deleteHandler r title s))) !! name = files (store s) !! name.
Proof.
  intros N. unfold deleteHandler.
  destruct (negb (String.eqb (Method r) MethodPost)); [now rewrite onW_eq|].
  unfold bind at 1. rewrite onFS_loadPage.
  destruct (fst (loadPage title (store s))); [|now rewrite onW_eq].
  unfold bind. rewrite onFS_eq. unfold Remove.
  cbn [store resp files readOnly logCall].
  change ("data/" +:+ title +:+ ".txt") with (filename title).
  destruct (files (store s) !! filename title); [destruct (readOnly (store s))|];
    cbn [fst snd]; rewrite ?onW_eq; cbn [fst snd store resp ret];
    rewrite ?onW_eq; cbn [fst snd store resp files logCall setFiles ret];
    try reflexivity.
  apply lookup_delete_ne. congruence.
Qed.

(** C9. A save or a delete of title [t] changes no file but data/t.txt,
    so a load of another title [u] returns what it returned before.  The
    statement is given for [Page.save] and [os.Remove] themselves, whatever
    they return, and for the two requests. *)
Theorem save_delete_frame (fs : FileSystem) (t u : string) :
  ValidTitle t -> ValidTitle u -> t <> u ->
  (forall p e fs1,
     Title p = t -> save p fs = (e, fs1) ->
     fst (loadPage u fs1) = fst (loadPage u fs)
     /\ forall name, name <> "data/" +:+ t +:+ ".txt" ->
          files fs1 !! name = files fs !! name)
  /\ (forall e fs1,
        Remove ("data/" +:+ t +:+ ".txt") fs = (e, fs1) ->
        fst (loadPage u fs1) = fst (loadPage u fs)
        /\ forall name, name <> "data/" +:+ t +:+ ".txt" ->
             files fs1 !! name = files fs !! name)
  /\ (forall r s,
        URL_Path r = "/save/" +:+ t \/ URL_Path r = "/delete/" +:+ t ->
        ServeHTTP templates r fs = Served s ->
        fst (loadPage u (store s)) = fst (loadPage u fs)
        /\ forall name, name <> "data/" +:+ t +:+ ".txt" ->
             files (store s) !! name = files fs !! name).
Proof.
  intros Vt Vu Ne.
  assert (Nf : filename u <> filename t).
  { intros E. apply filename_inj in E. congruence. }
  assert (Frame : forall fs1,
            (forall name, name <> filename t -> files fs1 !! name = files fs !! name) ->
            fst (loadPage u fs1) = fst (loadPage u fs)
            /\ forall name, name <> "data/" +:+ t +:+ ".txt" ->
                 files fs1 !! name = files fs !! name).
  { intros fs1 F. split; [apply loadPage_frame, F, Nf | exact F]. }
  split; [|split].
  - intros p e fs1 Et Es. apply Frame. intros name N.
    unfold save, WriteFile in Es. rewrite Et in Es.
    destruct (readOnly fs); [|destruct (openFault fs (filename t))];
      injection Es as _ <-; cbn [files logCall setFiles]; try reflexivity.
    apply lookup_insert_ne. congruence.
  - intros e fs1 Es. apply Frame. intros name N.
    unfold Remove in Es. change ("data/" +:+ t +:+ ".txt") with (filename t) in Es.
    destruct (files fs !! filename t); [destruct (readOnly fs)|];
      injection Es as _ <-; cbn [files logCall setFiles]; try reflexivity.
    apply lookup_delete_ne. congruence.
  - intros r s Ep Es. apply Frame. intros name N.
    destruct Ep as [Ep|Ep].
    + assert (R : ValidRoute (URL_Path r) "save" t).
      { rewrite Ep. apply (ValidRoute_intro "save"); [simpl; tauto | exact Vt]. }
      rewrite (ServeHTTP_valid templates r fs _ _ R) in Es. injection Es as <-.
      rewrite run_eq. cbn [store].
      change (handlerOf templates "save") with saveHandler.
      now rewrite saveHandler_files.
    + assert (R : ValidRoute (URL_Path r) "delete" t).
      { rewrite Ep. apply (ValidRoute_intro "delete"); [simpl; tauto | exact Vt]. }
      rewrite (ServeHTTP_valid templates r fs _ _ R) in Es. injection Es as <-.
      rewrite run_eq. cbn [store].
      change (handlerOf templates "delete") with deleteHandler.
      now rewrite deleteHandler_files.
Qed.

(** C10. Handling a request under /view/ or /edit/ leaves every file as it
    was: the calls the handler makes to the store are reads, and the empty
    page the edit handler falls back to is not written. *)
Theorem view_edit_leave_store_unchanged (r : Request) (fs : FileSystem) (s : Server)
    (rest : string) :
  URL_Path r = "/view/" +:+ rest \/ URL_Path r = "/edit/" +:+ rest ->
  ServeHTTP templates r fs = Served s ->
  files (store s) = files fs
  /\ readOnly (store s) = readOnly fs
  /\ exists calls,
       trace (store s) = trace fs ++ calls /\ forallb isRead calls = true.
Proof.
  intros Ep. unfold ServeHTTP.
  destruct (mux_redirect (routes templates) r); [discriminate|].
  intros [= <-]. rewrite run_eq. cbn [store].
  unfold mux_Handler, routes.
  destruct Ep as [Ep|Ep]; rewrite Ep.
  - rewrite mux_match_view. unfold makeHandler.
    destruct (FindStringSubmatch (URL_Path r)) as [m|].
    + rewrite viewHandler_store. cbn [files readOnly trace logCall store].
      repeat split. now eexists [_].
    + rewrite onW_eq. cbn [store snd]. repeat split.
      exists []. now rewrite app_nil_r.
  - rewrite mux_match_edit. unfold makeHandler.
    destruct (FindStringSubmatch (URL_Path r)) as [m|].
    + rewrite editHandler_store. cbn [files readOnly trace logCall store].
      repeat split. now eexists [_].
    + rewrite onW_eq. cbn [store snd]. repeat split.
      exists []. now rewrite app_nil_r.
Qed.

(** The valid routes are the paths in the language of [validPath]. *)
Lemma ValidRoute_matches path :
  (exists op title, ValidRoute path op title) <-> matches validPath (bytes path).
Proof.
  split.
  - intros [op [title [Hin [[Hne Hal] ->]]]].
    apply matches_validPath. exists op, (bytes title).
    repeat split; try assumption.
    + intros E. apply bytes_nil_inv in E. contradiction.
    + now rewrite !bytes_app.
  - intros M. destruct (FindStringSubmatch path) as [m|] eqn:E.
    + apply FindStringSubmatch_sound in E as [op [title [V _]]]. eauto.
    + apply FindStringSubmatch_None in E. contradiction.
Qed.

(** X17. Dispatch by the pattern.  [makeHandler] calls the wrapped
    function, with the title of the path, exactly on the paths in the
    language of [validPath], and answers any other path with the 404 of
    [http.NotFound] without calling it.  Under the mux of [main], for a
    request the mux does not redirect itself, this decides the requests of
    the four subtrees: a valid route runs its handler, any other path of a
    subtree gets the 404 and the store is not touched.  A rooted path
    outside the four subtrees goes to the root handler, which answers with
    a 307 to /view/FrontPage. *)
Theorem router_dispatch (r : Request) (fs : FileSystem) :
  ((exists op title, ValidRoute (URL_Path r) op title)
   <-> matches validPath (bytes (URL_Path r)))
  /\ (forall fn op title,
        ValidRoute (URL_Path r) op title -> makeHandler fn r = fn r title)
  /\ (forall fn,
        (~ exists op title, ValidRoute (URL_Path r) op title) ->
        makeHandler fn r = onW http_NotFound)
  /\ (forall op title,
        ValidRoute (URL_Path r) op title ->
        ServeHTTP templates r fs = Served (run (handlerOf templates op r title) fs))
  /\ (forall op rest,
        In op ["edit"; "save"; "view"; "delete"] ->
        URL_Path r = "/" +:+ op +:+ "/" +:+ rest ->
        (~ exists op' title, ValidRoute (URL_Path r) op' title) ->
        mux_redirect (routes templates) r = None ->
        exists s,
          ServeHTTP templates r fs = Served s
          /\ status (resp s) = 404
          /\ body (resp s) = "404 page not found" +:+ nl
          /\ store s = fs)
  /\ (forall rest,
        URL_Path r = "/" +:+ rest ->
        (forall op tail, In op ["edit"; "save"; "view"; "delete"] ->
           URL_Path r <> "/" +:+ op +:+ "/" +:+ tail) ->
        mux_redirect (routes templates) r = None ->
        exists s,
          ServeHTTP templates r fs = Served s
          /\ status (resp s) = 307
          /\ sentHeader (resp s) !! "Location" = Some "/view/FrontPage"
          /\ store s = fs).
Proof.
  split; [apply ValidRoute_matches|].
  split; [intros fn op title V; now apply (makeHandler_valid fn r op title)|].
  split; [intros fn N; now apply makeHandler_invalid|].
  split; [intros op title V; now apply (ServeHTTP_valid templates r fs op title)|].
  split.
  - intros op rest Hin Ep N Hr. unfold ServeHTTP. rewrite Hr.
    assert (Hh : mux_Handler templates r r = onW http_NotFound).
    { unfold mux_Handler, routes. rewrite Ep. simpl in Hin.
      destruct Hin as [<-|[<-|[<-|[<-|[]]]]].
      - change ("/" +:+ "edit" +:+ "/" +:+ rest) with ("/edit/" +:+ rest).
        rewrite mux_match_edit. now apply makeHandler_invalid.
      - change ("/" +:+ "save" +:+ "/" +:+ rest) with ("/save/" +:+ rest).
        rewrite mux_match_save. now apply makeHandler_invalid.
      - change ("/" +:+ "view" +:+ "/" +:+ rest) with ("/view/" +:+ rest).
        rewrite mux_match_view. now apply makeHandler_invalid.
      - change ("/" +:+ "delete" +:+ "/" +:+ rest) with ("/delete/" +:+ rest).
        rewrite mux_match_delete. now apply makeHandler_invalid. }
    rewrite Hh.
    rewrite (run_Error _ fs fs "404 page not found" StatusNotFound) by reflexivity.
    eexists. split; [reflexivity|]. repeat split; reflexivity.
  - intros rest Ep Hout Hr. unfold ServeHTTP. rewrite Hr.
    assert (Hh : mux_Handler templates r r = redirFrontPage r).
    { unfold mux_Handler, routes. rewrite Ep.
      change ("/" +:+ rest) with (String "/" rest).
      rewrite mux_match_root; [reflexivity|].
      intros op tail Hin E. apply (Hout op tail Hin). now rewrite Ep. }
    rewrite Hh.
    rewrite (run_Redirect _ fs fs r "/view/FrontPage" StatusTemporaryRedirect)
      by reflexivity.
    eexists. split; [reflexivity|]. cbn [resp store].
    split; [apply Redirect_status|].
    split; [apply Redirect_Location | reflexivity].
Qed.

End Claims.

(** * Concrete instances *)

Lemma ValidTitle_Foo : ValidTitle "Foo".
Proof. split; [discriminate | reflexivity]. Defined.

Lemma ValidTitle_Bar : ValidTitle "Bar".
Proof. split; [discriminate | reflexivity]. Defined.

Lemma ValidTitle_Missing : ValidTitle "Missing".
Proof. split; [discriminate | reflexivity]. Defined.

Lemma save_load_roundtrip_witness :
  ValidTitle (Title editedPage)
  /\ files sampleStore !! "data/Foo.txt" = Some (bytes "Hello [Other] []")
  /\ save editedPage sampleStore = (None, snd (save editedPage sampleStore))
  /\ files (snd (save editedPage sampleStore)) !! "data/Foo.txt"
     = Some (bytes "New text [Bar]")
  /\ (exists p' fs2,
        loadPage "Foo" (snd (save editedPage sampleStore)) = (inl p', fs2)
        /\ Title p' = "Foo" /\ Body p' = bytes "New text [Bar]")
  /\ ValidTitle (Title newPage)
  /\ files sampleStore !! "data/Bar.txt" = None
  /\ save newPage sampleStore = (None, snd (save newPage sampleStore))
  /\ exists p' fs2,
       loadPage "Bar" (snd (save newPage sampleStore)) = (inl p', fs2)
       /\ Title p' = "Bar" /\ Body p' = bytes "Hello [Foo]".
Proof.
  split; [exact ValidTitle_Foo|]. split; [vm_compute; reflexivity|].
  split; [reflexivity|].
  split; [exact (proj1 (save_load_roundtrip editedPage sampleStore
                          (snd (save editedPage sampleStore)) ValidTitle_Foo eq_refl))|].
  split; [exact (proj2 (save_load_roundtrip editedPage sampleStore
                          (snd (save editedPage sampleStore)) ValidTitle_Foo eq_refl))|].
  split; [exact ValidTitle_Bar|]. split; [vm_compute; reflexivity|].
  split; [reflexivity|].
  exact (proj2 (save_load_roundtrip newPage sampleStore
                  (snd (save newPage sampleStore)) ValidTitle_Bar eq_refl)).
Defined.


Lemma view_missing_redirects_to_edit_witness :
  Method (getView "Missing") = "GET"
  /\ ValidTitle "Missing"
  /\ files sampleStore !! "data/Missing.txt" = None
  /\ exists s,
       ServeHTTP sampleTemplates (getView "Missing") sampleStore = Served s
       /\ status (resp s) = 302
       /\ sentHeader (resp s) !! "Location" = Some "/edit/Missing".
Proof.
  split; [reflexivity|]. split; [exact ValidTitle_Missing|].
  split; [reflexivity|].
  destruct (view_missing_redirects_to_edit sampleTemplates (getView "Missing")
              sampleStore "Missing" eq_refl ValidTitle_Missing eq_refl eq_refl)
    as [s [E [St [Loc _]]]].
  exists s. split; [exact E|]. split; [exact St | exact Loc].
Defined.

Lemma save_rejects_other_methods_witness :
  Method (mkRequest "GET" "/save/Foo" [] [("body", "x")]) <> "POST"
  /\ ValidTitle "Foo"
  /\ (exists s,
        ServeHTTP sampleTemplates (mkRequest "GET" "/save/Foo" [] [("body", "x")])
          sampleStore = Served s
        /\ status (resp s) = 400
        /\ store s = sampleStore)
  /\ fst (save (mkPage "Foo" (bytes "x") "" false false) sampleStore) = None
  /\ exists s,
       ServeHTTP sampleTemplates (postSave "Foo" "x") sampleStore = Served s
       /\ status (resp s) = 302
       /\ files (store s) !! "data/Foo.txt" = Some (bytes "x").
Proof.
  assert (N : Method (mkRequest "GET" "/save/Foo" [] [("body", "x")]) <> "POST")
    by discriminate.
  split; [exact N|]. split; [exact ValidTitle_Foo|]. split; [|split; [reflexivity|]].
  - destruct (proj1 (save_rejects_other_methods sampleTemplates
                       (mkRequest "GET" "/save/Foo" [] [("body", "x")])
                       sampleStore "Foo" ValidTitle_Foo eq_refl) N)
      as [s [E [St [_ Es]]]].
    exists s. split; [exact E|]. split; [exact St | exact Es].
  - destruct (proj2 (save_rejects_other_methods sampleTemplates (postSave "Foo" "x")
                       sampleStore "Foo" ValidTitle_Foo eq_refl) eq_refl eq_refl)
      as [s [E [St F]]].
    exists s. split; [exact E|]. split; [exact St|].
    rewrite F. apply lookup_insert_eq.
Defined.

Lemma delete_missing_is_not_found_witness :
  Method (postDelete "Missing") = "POST"
  /\ ValidTitle "Missing"
  /\ files sampleStore !! "data/Missing.txt" = None
  /\ exists s,
       ServeHTTP sampleTemplates (postDelete "Missing") sampleStore = Served s
       /\ status (resp s) = 404
       /\ trace (store s) = [SysReadFile "data/Missing.txt"].
Proof.
  split; [reflexivity|]. split; [exact ValidTitle_Missing|].
  split; [reflexivity|].
  destruct (delete_missing_is_not_found sampleTemplates (postDelete "Missing")
              sampleStore "Missing" eq_refl ValidTitle_Missing eq_refl eq_refl)
    as [s [E [St [_ [_ Tr]]]]].
  exists s. split; [exact E|]. split; [exact St | exact Tr].
Defined.

Lemma delete_failure_is_500_redirect_only_on_success_witness :
  Method (postDelete "Foo") = "POST"
  /\ ValidTitle "Foo"
  /\ files sampleReadOnlyStore !! "data/Foo.txt" = Some (bytes "Hello [Other] []")
  /\ fst (Remove "data/Foo.txt"
            (logCall (SysReadFile "data/Foo.txt") sampleReadOnlyStore))
     = Some (PathError "remove" "data/Foo.txt" EROFS)
  /\ (exists s,
        ServeHTTP sampleTemplates (postDelete "Foo") sampleReadOnlyStore = Served s
        /\ status (resp s) = 500
        /\ body (resp s) = "remove data/Foo.txt: read-only file system" +:+ nl
        /\ sentHeader (resp s) !! "Location" = None
        /\ files (store s) = files sampleReadOnlyStore)
  /\ fst (Remove "data/Foo.txt" (logCall (SysReadFile "data/Foo.txt") sampleStore))
     = None
  /\ exists s,
       ServeHTTP sampleTemplates (postDelete "Foo") sampleStore = Served s
       /\ status (resp s) = 302
       /\ sentHeader (resp s) !! "Location" = Some "/view/FrontPage?from_delete=true"
       /\ files (store s) !! "data/Foo.txt" = None.
Proof.
  split; [reflexivity|]. split; [exact ValidTitle_Foo|].
  split; [vm_compute; reflexivity|]. split; [vm_compute; reflexivity|].
  split; [|split; [vm_compute; reflexivity|]].
  - destruct (delete_failure_is_500_redirect_only_on_success sampleTemplates
                (postDelete "Foo") sampleReadOnlyStore "Foo"
                (bytes "Hello [Other] []") eq_refl ValidTitle_Foo eq_refl eq_refl)
      as [s [E [F _]]].
    exists s. split; [exact E|].
    exact (F (PathError "remove" "data/Foo.txt" EROFS) eq_refl).
  - destruct (delete_failure_is_500_redirect_only_on_success sampleTemplates
                (postDelete "Foo") sampleStore "Foo"
                (bytes "Hello [Other] []") eq_refl ValidTitle_Foo eq_refl eq_refl)
      as [s [E [_ [G _]]]].
    destruct (G eq_refl) as [St [Loc Fl]].
    exists s. split; [exact E|]. split; [exact St|]. split; [exact Loc|].
    rewrite Fl. apply lookup_delete_eq.
Defined.

Lemma delete_failure_falls_through_to_redirect_witness :
  Method (postDelete "Foo") = "POST"
  /\ ValidTitle "Foo"
  /\ files sampleReadOnlyStore !! "data/Foo.txt" = Some (bytes "Hello [Other] []")
  /\ readOnly sampleReadOnlyStore = true
  /\ exists s,
       ServeHTTP sampleTemplates (postDelete "Foo") sampleReadOnlyStore = Served s
       /\ status (resp s) = 500
       /\ header (resp s) !! "Location" = Some "/view/FrontPage?from_delete=true"
       /\ errorLog (resp s) = ["http: superfluous response.WriteHeader call"].
Proof.
  split; [reflexivity|]. split; [exact ValidTitle_Foo|].
  split; [reflexivity|]. split; [reflexivity|].
  destruct (delete_failure_falls_through_to_redirect sampleTemplates
              (postDelete "Foo") sampleReadOnlyStore "Foo"
              (bytes "Hello [Other] []") eq_refl ValidTitle_Foo eq_refl eq_refl eq_refl)
    as [s [E [St [_ [_ [Loc [Lg _]]]]]]].
  exists s. split; [exact E|]. split; [exact St|]. split; [exact Loc | exact Lg].
Defined.

Lemma delete_then_load_not_found_witness :
  ValidTitle "Foo"
  /\ Remove "data/Foo.txt" sampleStore
     = (None, snd (Remove "data/Foo.txt" sampleStore))
  /\ fst (loadPage "Foo" (snd (Remove "data/Foo.txt" sampleStore)))
     = inr (PathError "open" "data/Foo.txt" ENOENT)
  /\ ServeHTTP sampleTemplates (postDelete "Foo") sampleStore
     = Served (run (deleteHandler (postDelete "Foo") "Foo") sampleStore)
  /\ status (resp (run (deleteHandler (postDelete "Foo") "Foo") sampleStore)) = 302
  /\ fst (loadPage "Foo"
            (store (run (deleteHandler (postDelete "Foo") "Foo") sampleStore)))
     = inr (PathError "open" "data/Foo.txt" ENOENT).
Proof.
  assert (E : ServeHTTP sampleTemplates (postDelete "Foo") sampleStore
              = Served (run (deleteHandler (postDelete "Foo") "Foo") sampleStore))
    by (vm_compute; reflexivity).
  assert (St : status (resp (run (deleteHandler (postDelete "Foo") "Foo")
                               sampleStore)) = 302)
    by (vm_compute; reflexivity).
  split; [exact ValidTitle_Foo|]. split; [reflexivity|].
  split.
  - exact (proj1 (delete_then_load_not_found sampleTemplates "Foo" ValidTitle_Foo)
             sampleStore (snd (Remove "data/Foo.txt" sampleStore)) eq_refl).
  - split; [exact E|]. split; [exact St|].
    exact (proj2 (delete_then_load_not_found sampleTemplates "Foo" ValidTitle_Foo)
             (postDelete "Foo") sampleStore _ eq_refl E St).
Defined.

Lemma save_delete_frame_witness :
  ValidTitle "Foo" /\ ValidTitle "Bar" /\ "Bar" <> "Foo"
  /\ fst (loadPage "Foo"
            (snd (save (mkPage "Bar" (bytes "x") "" false false) sampleStore)))
     = fst (loadPage "Foo" sampleStore).
Proof.
  assert (N : "Bar" <> "Foo") by discriminate.
  split; [exact ValidTitle_Foo|]. split; [exact ValidTitle_Bar|].
  split; [exact N|].
  exact (proj1 (proj1 (save_delete_frame sampleTemplates sampleStore "Bar" "Foo"
                         ValidTitle_Bar ValidTitle_Foo N)
                  (mkPage "Bar" (bytes "x") "" false false) None
                  (snd (save (mkPage "Bar" (bytes "x") "" false false) sampleStore))
                  eq_refl eq_refl)).
Defined.

Lemma view_edit_leave_store_unchanged_witness :
  URL_Path (mkRequest "GET" "/edit/Missing" [] []) = "/edit/" +:+ "Missing"
  /\ exists s,
       ServeHTTP sampleTemplates (mkRequest "GET" "/edit/Missing" [] []) sampleStore
       = Served s
       /\ files (store s) = files sampleStore.
Proof.
  split; [reflexivity|].
  exists (run (editHandler sampleTemplates (mkRequest "GET" "/edit/Missing" [] [])
                 "Missing") sampleStore).
  assert (E : ServeHTTP sampleTemplates (mkRequest "GET" "/edit/Missing" [] [])
                sampleStore
              = Served (run (editHandler sampleTemplates
                               (mkRequest "GET" "/edit/Missing" [] []) "Missing")
                          sampleStore))
    by (vm_compute; reflexivity).
  split; [exact E|].
  exact (proj1 (view_edit_leave_store_unchanged sampleTemplates
                  (mkRequest "GET" "/edit/Missing" [] []) sampleStore _ "Missing"
                  (or_intror eq_refl) E)).
Defined.

Lemma about_is_no_route :
  ~ exists op title, ValidRoute "/about" op title.
Proof.
  intros [op [title V]]. apply FindStringSubmatch_complete in V.
  vm_compute in V. discriminate V.
Defined.

Lemma dotted_is_no_route :
  ~ exists op title, ValidRoute "/view/a.b" op title.
Proof.
  intros [op [title V]]. apply FindStringSubmatch_complete in V.
  vm_compute in V. discriminate V.
Defined.

Lemma about_outside_subtrees (op tail : string) :
  In op ["edit"; "save"; "view"; "delete"] ->
  "/about" <> "/" +:+ op +:+ "/" +:+ tail.
Proof.
  simpl. intros [<-|[<-|[<-|[<-|[]]]]]; discriminate.
Defined.

(** C2. The path /about does not match the pattern, so by the claim it is
    answered with a 404.  [main] registers the root handler for the
    pattern /, which the mux matches against every path outside the four
    subtrees, although the handler is commented as meant for the web root:
    the request for /about is answered with its 307 to /view/FrontPage. *)
Theorem unmatched_path_gets_root_redirect :
  (~ exists op title, ValidRoute "/about" op title)
  /\ ~ matches validPath (bytes "/about")
  /\ exists s,
       ServeHTTP sampleTemplates (mkRequest "GET" "/about" [] []) sampleStore
       = Served s
       /\ status (resp s) = 307
       /\ status (resp s) <> 404
       /\ sentHeader (resp s) !! "Location" = Some "/view/FrontPage".
Proof.
  split; [exact about_is_no_route|].
  split; [apply FindStringSubmatch_None; reflexivity|].
  exists (run (redirFrontPage (mkRequest "GET" "/about" [] [])) sampleStore).
  split; [vm_compute; reflexivity|].
  split; [reflexivity|].
  split; [discriminate | reflexivity].
Qed.

Lemma router_dispatch_witness :
  ValidRoute (URL_Path (getView "Foo")) "view" "Foo"
  /\ ServeHTTP sampleTemplates (getView "Foo") sampleStore
     = Served (run (viewHandler sampleTemplates (getView "Foo") "Foo") sampleStore)
  /\ (exists s,
        ServeHTTP sampleTemplates (getView "a.b") sampleStore = Served s
        /\ status (resp s) = 404)
  /\ (exists s,
        ServeHTTP sampleTemplates (mkRequest "GET" "/about" [] []) sampleStore
        = Served s
        /\ status (resp s) = 307
        /\ sentHeader (resp s) !! "Location" = Some "/view/FrontPage").
Proof.
  assert (V : ValidRoute (URL_Path (getView "Foo")) "view" "Foo").
  { split; [simpl; tauto|]. split; [exact ValidTitle_Foo | reflexivity]. }
  split; [exact V|]. split; [|split].
  - exact (proj1 (proj2 (proj2 (proj2
             (router_dispatch sampleTemplates (getView "Foo") sampleStore))))
             "view" "Foo" V).
  - destruct (proj1 (proj2 (proj2 (proj2 (proj2
               (router_dispatch sampleTemplates (getView "a.b") sampleStore)))))
               "view" "a.b" ltac:(simpl; tauto) eq_refl dotted_is_no_route eq_refl)
      as [s [E [St _]]].
    exists s. split; [exact E | exact St].
  - destruct (proj2 (proj2 (proj2 (proj2 (proj2
               (router_dispatch sampleTemplates (mkRequest "GET" "/about" [] [])
                  sampleStore)))))
               "about" eq_refl about_outside_subtrees eq_refl)
      as [s [E [St [Loc _]]]].
    exists s. split; [exact E|]. split; [exact St | exact Loc].
Defined.

(** * Further properties of the program *)

(** ** Writing a response *)

Lemma Write_written data w0 :
  wroteHeader w0 = true ->
  Write data w0 =
  (tt, mkW (header w0) true (status w0) (sentHeader w0) (body w0 +:+ data)
           (errorLog w0)).
Proof.
  destruct w0 as [h wh st sh b el]. simpl. intros ->. reflexivity.
Qed.

Lemma Write_fresh data w0 :
  wroteHeader w0 = false ->
  Write data w0 =
  (tt, mkW (header w0) true StatusOK (header w0) (body w0 +:+ data) (errorLog w0)).
Proof.
  destruct w0 as [h wh st sh b el]. simpl. intros ->. reflexivity.
Qed.

Lemma WriteAll_written chunks w0 :
  wroteHeader w0 = true ->
  snd (WriteAll chunks w0) =
  mkW (header w0) true (status w0) (sentHeader w0) (body w0 +:+ written chunks)
      (errorLog w0).
Proof.
  revert w0. induction chunks as [|c cs IH]; intros w0 E.
  - destruct w0 as [h wh st sh b el]. simpl in *. subst wh.
    unfold written. simpl. now rewrite append_nil_r.
  - cbn [WriteAll]. unfold bind. rewrite (Write_written c w0 E).
    rewrite IH by reflexivity. cbn [header status sentHeader body errorLog].
    unfold written. cbn [fold_right]. now rewrite append_assoc.
Qed.

Lemma WriteAll_fresh c cs w0 :
  wroteHeader w0 = false ->
  snd (WriteAll (c :: cs) w0) =
  mkW (header w0) true StatusOK (header w0) (body w0 +:+ written (c :: cs))
      (errorLog w0).
Proof.
  intros E. cbn [WriteAll]. unfold bind. rewrite (Write_fresh c w0 E).
  rewrite WriteAll_written by reflexivity.
  cbn [header status sentHeader body errorLog].
  unfold written. cbn [fold_right]. now rewrite append_assoc.
Qed.

Lemma http_Error_written msg code w0 :
  wroteHeader w0 = true ->
  http_Error msg code w0 =
  (tt, mkW (<["X-Content-Type-Options" := "nosniff"]>
              (<["Content-Type" := "text/plain; charset=utf-8"]>
                 (delete "Content-Length" (header w0))))
           true (status w0) (sentHeader w0) (body w0 +:+ msg +:+ nl)
           (errorLog w0 ++ ["http: superfluous response.WriteHeader call"])).
Proof.
  destruct w0 as [h wh st sh b el]. simpl. intros ->. run_writer. reflexivity.
Qed.

Section Rendering.

Variable templates : string -> Page -> list string * option string.

Lemma run_store_renderTemplate tmpl p fs :
  store (run (renderTemplate templates tmpl p) fs) = fs.
Proof. rewrite run_eq. cbn [store]. now rewrite renderTemplate_store. Qed.

(** A handler that ends in a rendering answers as the rendering does. *)
Lemma run_render (h : ST Server unit) fs fs' tmpl p :
  h (mkServer newResponseWriter fs) =
  renderTemplate templates tmpl p (mkServer newResponseWriter fs') ->
  run h fs = run (renderTemplate templates tmpl p) fs'.
Proof. intros E. now rewrite !run_eq, E. Qed.

(** X1. The three ways a rendering ends.  A template that succeeds gives a
    200 whose body is what it wrote.  A template that fails before it
    writes anything gives the 500 with the error text.  A template that
    fails after it wrote something cannot change the status any more: the
    answer stays 200, the error text follows the partial page, and the
    WriteHeader(500) of [http.Error] is logged as superfluous.  The store is
    untouched in every case. *)
Theorem renderTemplate_outcomes (tmpl : string) (p : Page) (fs : FileSystem)
    (chunks : list string) (err : option string) :
  templates (tmpl +:+ ".html") p = (chunks, err) ->
  store (run (renderTemplate templates tmpl p) fs) = fs
  /\ match err, chunks with
     | None, _ =>
         status (resp (run (renderTemplate templates tmpl p) fs)) = 200
         /\ body (resp (run (renderTemplate templates tmpl p) fs)) = written chunks
         /\ errorLog (resp (run (renderTemplate templates tmpl p) fs)) = []
     | Some e, [] =>
         status (resp (run (renderTemplate templates tmpl p) fs)) = 500
         /\ body (resp (run (renderTemplate templates tmpl p) fs)) = e +:+ nl
         /\ errorLog (resp (run (renderTemplate templates tmpl p) fs)) = []
     | Some e, _ :: _ =>
         status (resp (run (renderTemplate templates tmpl p) fs)) = 200
         /\ body (resp (run (renderTemplate templates tmpl p) fs))
            = written chunks +:+ e +:+ nl
         /\ errorLog (resp (run (renderTemplate templates tmpl p) fs))
            = ["http: superfluous response.WriteHeader call"]
     end.
Proof.
  intros E. split; [apply run_store_renderTemplate|].
  rewrite run_eq. cbn [resp]. unfold renderTemplate. rewrite E. unfold bind.
  rewrite onW_eq. cbn [fst snd resp store].
  destruct err as [e|], chunks as [|c cs].
  - rewrite onW_eq. cbn [WriteAll ret snd resp].
    rewrite http_Error_fresh by reflexivity. repeat split; reflexivity.
  - rewrite onW_eq. cbn [snd resp].
    rewrite WriteAll_fresh by reflexivity.
    rewrite http_Error_written by reflexivity.
    cbn [snd]. repeat split; reflexivity.
  - repeat split; reflexivity.
  - cbn [ret snd resp]. rewrite WriteAll_fresh by reflexivity.
    repeat split; reflexivity.
Qed.

End Rendering.

(** ** More on the handlers *)

Lemma readOnly_logCall c fs : readOnly (logCall c fs) = readOnly fs.
Proof. reflexivity. Qed.

(** A save request is answered with a 302 only by the branch for a save
    that returned no error. *)
Lemma run_save_302 r fs title :
  status (resp (run (saveHandler r title) fs)) = 302 ->
  Method r = "POST"
  /\ fst (save (mkPage title (bytes (FormValue r "body")) "" false false) fs) = None
  /\ run (saveHandler r title) fs =
     mkServer
       (snd (http_Redirect r ("/view/" +:+ title +:+ "?from_save=true") StatusFound
               newResponseWriter))
       (setFiles (<[filename title := bytes (FormValue r "body")]> (files fs))
          (logCall (SysWriteFile (filename title) (bytes (FormValue r "body")) 384) fs)).
Proof.
  intros St. destruct (String.eqb (Method r) "POST") eqn:Em.
  - apply String.eqb_eq in Em. split; [exact Em|].
    destruct (save (mkPage title (bytes (FormValue r "body")) "" false false) fs)
      as [[e|] fs1] eqn:E.
    + rewrite (run_save_err r title fs e fs1 Em E) in St. discriminate St.
    + split; [reflexivity|].
      rewrite (run_save_ok r title fs fs1 Em E).
      apply save_ok in E as [_ ->]. reflexivity.
  - rewrite (run_Error _ fs fs "400 - Bad method type" StatusBadRequest) in St.
    + discriminate St.
    + apply saveHandler_not_POST. intros E. rewrite E in Em. discriminate.
Qed.

(** Whatever a save request is answered with, the files are as they were
    or hold the submitted body under the title. *)
Lemma run_save_files r fs title :
  files (store (run (saveHandler r title) fs)) = files fs
  \/ files (store (run (saveHandler r title) fs))
     = <[filename title := bytes (FormValue r "body")]> (files fs).
Proof.
  destruct (String.eqb (Method r) "POST") eqn:Em.
  - apply String.eqb_eq in Em.
    destruct (save (mkPage title (bytes (FormValue r "body")) "" false false) fs)
      as [[e|] fs1] eqn:E.
    + rewrite (run_save_err r title fs e fs1 Em E).
      apply save_err in E as ->. now left.
    + rewrite (run_save_ok r title fs fs1 Em E).
      apply save_ok in E as [_ ->]. now right.
  - rewrite (run_Error _ fs fs "400 - Bad method type" StatusBadRequest).
    + now left.
    + apply saveHandler_not_POST. intros E. rewrite E in Em. discriminate.
Qed.

Lemma run_save_read_only r fs title :
  Method r = "POST" ->
  readOnly fs = true ->
  run (saveHandler r title) fs =
  mkServer
    (snd (http_Error (Error (PathError "open" (filename title) EROFS))
            StatusInternalServerError newResponseWriter))
    (logCall (SysWriteFile (filename title) (bytes (FormValue r "body")) 384) fs).
Proof.
  intros Em Ero. apply run_Error.
  rewrite (saveHandler_POST r title _ Em). unfold bind.
  rewrite onFS_eq. unfold save, WriteFile. cbn [store Title Body].
  rewrite Ero. reflexivity.
Qed.

Lemma ValidRoute_op op title :
  In op validPath_ops -> ValidTitle title ->
  forall r, URL_Path r = "/" +:+ op +:+ "/" +:+ title ->
  ValidRoute (URL_Path r) op title.
Proof. intros Hin V r ->. now apply ValidRoute_intro. Qed.

Section Handlers.

Variable templates : string -> Page -> list string * option string.

Lemma run_view_present r fs title data :
  files fs !! filename title = Some data ->
  run (viewHandler templates r title) fs =
  run (renderTemplate templates "view"
         (mkPage title data (gostring (expandLinks data))
            (String.eqb (Values_Get (URL_Query r) "from_save") "true")
            (String.eqb (Values_Get (URL_Query r) "from_delete") "true")))
      (logCall (SysReadFile (filename title)) fs).
Proof.
  intros E. apply run_render.
  unfold viewHandler, bind. rewrite onFS_loadPage.
  cbn [store resp]. rewrite (loadPage_present _ _ _ E). cbn [fst].
  destruct (String.eqb (Values_Get (URL_Query r) "from_save") "true"),
    (String.eqb (Values_Get (URL_Query r) "from_delete") "true"); reflexivity.
Qed.

Lemma run_edit r fs title :
  run (editHandler templates r title) fs =
  run (renderTemplate templates "edit"
         match files fs !! filename title with
         | Some data => mkPage title data (gostring (expandLinks data)) false false
         | None => mkPage title [] "" false false
         end)
      (logCall (SysReadFile (filename title)) fs).
Proof.
  apply run_render. unfold editHandler, bind. rewrite onFS_loadPage.
  cbn [store resp].
  destruct (files fs !! filename title) as [data|] eqn:E.
  - now rewrite (loadPage_present _ _ _ E).
  - now rewrite (loadPage_absent _ _ E).
Qed.

(** X2. A view request for a page that exists renders the view template
    with the stored body, its link expansion, and the two banner flags:
    FromSave is set exactly when the first from_save value of the query is
    true, FromDelete exactly when the first from_delete value is; the one
    call to the store is the read. *)
Theorem view_renders_stored_page (r : Request) (fs : FileSystem) (title : string)
    (data : list byte) :
  ValidTitle title ->
  URL_Path r = "/view/" +:+ title ->
  files fs !! ("data/" +:+ title +:+ ".txt") = Some data ->
  exists p,
    ServeHTTP templates r fs
    = Served (run (renderTemplate templates "view" p)
                (logCall (SysReadFile ("data/" +:+ title +:+ ".txt")) fs))
    /\ Title p = title
    /\ Body p = data
    /\ bytes (DispBody p) = expandLinks data
    /\ (FromSave p = true <-> Values_Get (URL_Query r) "from_save" = "true")
    /\ (FromDelete p = true <-> Values_Get (URL_Query r) "from_delete" = "true").
Proof.
  intros V Ep Ef.
  assert (R : ValidRoute (URL_Path r) "view" title).
  { apply ValidRoute_op; [simpl; tauto | exact V | exact Ep]. }
  rewrite (ServeHTTP_valid templates r fs _ _ R).
  change (handlerOf templates "view") with (viewHandler templates).
  rewrite (run_view_present r fs title data Ef).
  eexists. split; [reflexivity|]. cbn [Title Body DispBody FromSave FromDelete].
  split; [reflexivity|]. split; [reflexivity|].
  split; [apply bytes_gostring|].
  split; apply String.eqb_eq.
Qed.

(** X3. An edit request never fails for want of a page: it renders the
    edit template with the stored page when the file exists and with an
    empty page of that title when it does not, with both banner flags
    unset whatever the query says, and it makes one read of the store. *)
Theorem edit_renders_page_or_blank (r : Request) (fs : FileSystem) (title : string) :
  ValidTitle title ->
  URL_Path r = "/edit/" +:+ title ->
  exists p,
    ServeHTTP templates r fs
    = Served (run (renderTemplate templates "edit" p)
                (logCall (SysReadFile ("data/" +:+ title +:+ ".txt")) fs))
    /\ Title p = title
    /\ FromSave p = false /\ FromDelete p = false
    /\ match files fs !! ("data/" +:+ title +:+ ".txt") with
       | Some data => Body p = data /\ bytes (DispBody p) = expandLinks data
       | None => Body p = [] /\ DispBody p = ""
       end.
Proof.
  intros V Ep.
  assert (R : ValidRoute (URL_Path r) "edit" title).
  { apply ValidRoute_op; [simpl; tauto | exact V | exact Ep]. }
  rewrite (ServeHTTP_valid templates r fs _ _ R).
  change (handlerOf templates "edit") with (editHandler templates).
  rewrite (run_edit r fs title).
  eexists. split; [reflexivity|].
  change ("data/" +:+ title +:+ ".txt") with (filename title).
  destruct (files fs !! filename title) as [data|];
    cbn [Title Body DispBody FromSave FromDelete]; repeat split;
    try reflexivity.
  apply bytes_gostring.
Qed.

(** X4. A save that cannot write answers with the 500 and the error text
    and stops there: no Location is set, nothing is logged, and no file
    changes.  The one call to the store is the failed write. *)
Theorem save_failure_is_reported (r : Request) (fs : FileSystem) (title : string) :
  Method r = "POST" ->
  ValidTitle title ->
  URL_Path r = "/save/" +:+ title ->
  readOnly fs = true ->
  exists s,
    ServeHTTP templates r fs = Served s
    /\ status (resp s) = 500
    /\ body (resp s) =
       "open data/" +:+ title +:+ ".txt: read-only file system" +:+ nl
    /\ header (resp s) !! "Location" = None
    /\ errorLog (resp s) = []
    /\ files (store s) = files fs
    /\ trace (store s)
       = trace fs ++ [SysWriteFile ("data/" +:+ title +:+ ".txt")
                        (bytes (FormValue r "body")) 384].
Proof.
  intros Em V Ep Ero.
  assert (R : ValidRoute (URL_Path r) "save" title).
  { apply ValidRoute_op; [simpl; tauto | exact V | exact Ep]. }
  rewrite (ServeHTTP_valid templates r fs _ _ R).
  change (handlerOf templates "save") with saveHandler.
  rewrite (run_save_read_only r fs title Em Ero).
  eexists. split; [reflexivity|]. cbn [resp store].
  split; [reflexivity|].
  split.
  { rewrite Error_body. unfold Error, filename. cbn [Op Path Err errno_Error].
    simpl. now rewrite !append_assoc. }
  repeat split; reflexivity.
Qed.

(** X19. Whatever the error a save returns, the read-only file system or
    a file that cannot be opened for another reason, a POST to
    /save/<title> answers with a 500 whose body is the text of that error
    and stops there: no Location is set, nothing is logged, no file
    changes, and the one call to the store is the failed write. *)
Theorem save_error_is_500 (r : Request) (fs fs1 : FileSystem) (title : string)
    (e : error) :
  Method r = "POST" ->
  ValidTitle title ->
  URL_Path r = "/save/" +:+ title ->
  save (mkPage title (bytes (FormValue r "body")) "" false false) fs = (Some e, fs1) ->
  exists s,
    ServeHTTP templates r fs = Served s
    /\ status (resp s) = 500
    /\ body (resp s) = Error e +:+ nl
    /\ header (resp s) !! "Location" = None
    /\ errorLog (resp s) = []
    /\ files (store s) = files fs
    /\ trace (store s)
       = trace fs ++ [SysWriteFile ("data/" +:+ title +:+ ".txt")
                        (bytes (FormValue r "body")) 384].
Proof.
  intros Em V Ep Es.
  assert (R : ValidRoute (URL_Path r) "save" title).
  { apply ValidRoute_op; [simpl; tauto | exact V | exact Ep]. }
  rewrite (ServeHTTP_valid templates r fs _ _ R).
  change (handlerOf templates "save") with saveHandler.
  rewrite (run_save_err r title fs e fs1 Em Es).
  apply save_err in Es as ->.
  eexists. split; [reflexivity|]. cbn [resp store].
  repeat split; reflexivity.
Qed.

(** X5. A delete request whose method is not POST is answered with a 400
    and makes no call to the store, whether the page exists or not. *)
Theorem delete_rejects_other_methods (r : Request) (fs : FileSystem) (title : string) :
  Method r <> "POST" ->
  ValidTitle title ->
  URL_Path r = "/delete/" +:+ title ->
  exists s,
    ServeHTTP templates r fs = Served s
    /\ status (resp s) = 400
    /\ body (resp s) = "400 - Bad method type" +:+ nl
    /\ store s = fs.
Proof.
  intros N V Ep.
  assert (R : ValidRoute (URL_Path r) "delete" title).
  { apply ValidRoute_op; [simpl; tauto | exact V | exact Ep]. }
  rewrite (ServeHTTP_valid templates r fs _ _ R).
  change (handlerOf templates "delete") with deleteHandler.
  rewrite (run_Error _ fs fs "400 - Bad method type" StatusBadRequest)
    by (now apply deleteHandler_not_POST).
  eexists. split; [reflexivity|]. repeat split; reflexivity.
Qed.

End Handlers.

(** ** Requests in sequence *)

Section Sequences.

Variable templates : string -> Page -> list string * option string.

(** X6. Saving and then following the redirect.  A request to
    /save/<title> that was answered with a 302 was a POST whose save
    returned no error; the 302 goes to /view/<title>?from_save=true with
    an empty body, and the file holds the submitted text.  The view
    request that follows renders the view template with the submitted text
    as body, its link expansion as displayed body, and, when the query
    carries from_save=true, the save banner set. *)
Theorem save_then_view_shows_saved_text (r1 r2 : Request) (fs : FileSystem)
    (title : string) (s1 : Server) :
  ValidTitle title ->
  URL_Path r1 = "/save/" +:+ title ->
  URL_Path r2 = "/view/" +:+ title ->
  ServeHTTP templates r1 fs = Served s1 ->
  status (resp s1) = 302 ->
  Method r1 = "POST"
  /\ fst (save (mkPage title (bytes (FormValue r1 "body")) "" false false) fs) = None
  /\ sentHeader (resp s1) !! "Location"
     = Some ("/view/" +:+ title +:+ "?from_save=true")
  /\ body (resp s1) = ""
  /\ files (store s1) !! ("data/" +:+ title +:+ ".txt")
     = Some (bytes (FormValue r1 "body"))
  /\ exists p,
       ServeHTTP templates r2 (store s1)
       = Served (run (renderTemplate templates "view" p)
                   (logCall (SysReadFile ("data/" +:+ title +:+ ".txt")) (store s1)))
       /\ Title p = title
       /\ Body p = bytes (FormValue r1 "body")
       /\ bytes (DispBody p) = expandLinks (bytes (FormValue r1 "body"))
       /\ (Values_Get (URL_Query r2) "from_save" = "true" -> FromSave p = true).
Proof.
  intros V Ep1 Ep2 Es St.
  assert (R1 : ValidRoute (URL_Path r1) "save" title).
  { apply ValidRoute_op; [simpl; tauto | exact V | exact Ep1]. }
  assert (R2 : ValidRoute (URL_Path r2) "view" title).
  { apply ValidRoute_op; [simpl; tauto | exact V | exact Ep2]. }
  rewrite (ServeHTTP_valid templates r1 fs _ _ R1) in Es.
  change (handlerOf templates "save") with saveHandler in Es.
  injection Es as <-.
  destruct (run_save_302 r1 fs title St) as [Em [Sv ->]].
  split; [exact Em|]. split; [exact Sv|]. cbn [resp store].
  split; [apply Redirect_Location|].
  split.
  { unfold http_Redirect. rewrite Em. reflexivity. }
  split; [apply lookup_insert_eq|].
  eexists.
  rewrite (ServeHTTP_valid templates r2 _ _ _ R2).
  change (handlerOf templates "view") with (viewHandler templates).
  rewrite (run_view_present templates r2 _ title (bytes (FormValue r1 "body")))
    by apply lookup_insert_eq.
  split; [reflexivity|]. cbn [Title Body DispBody FromSave].
  split; [reflexivity|]. split; [reflexivity|].
  split; [apply bytes_gostring|].
  apply String.eqb_eq.
Qed.

(** X7. The last save wins.  After two requests to /save/<title> of which
    the second was answered with a 302, whatever the first was answered
    with, the files are those before the two requests with the text of the
    second under the title, and a load of the title returns that text:
    nothing of the first request is left. *)
Theorem last_save_wins (r1 r2 : Request) (fs : FileSystem) (title : string)
    (s1 s2 : Server) :
  ValidTitle title ->
  URL_Path r1 = "/save/" +:+ title ->
  URL_Path r2 = "/save/" +:+ title ->
  ServeHTTP templates r1 fs = Served s1 ->
  ServeHTTP templates r2 (store s1) = Served s2 ->
  status (resp s2) = 302 ->
  files (store s2)
  = <["data/" +:+ title +:+ ".txt" := bytes (FormValue r2 "body")]> (files fs)
  /\ exists p,
       fst (loadPage title (store s2)) = inl p
       /\ Body p = bytes (FormValue r2 "body").
Proof.
  intros V Ep1 Ep2 Es1 Es2 St.
  assert (R1 : ValidRoute (URL_Path r1) "save" title).
  { apply ValidRoute_op; [simpl; tauto | exact V | exact Ep1]. }
  assert (R2 : ValidRoute (URL_Path r2) "save" title).
  { apply ValidRoute_op; [simpl; tauto | exact V | exact Ep2]. }
  rewrite (ServeHTTP_valid templates r1 fs _ _ R1) in Es1.
  rewrite (ServeHTTP_valid templates r2 _ _ _ R2) in Es2.
  change (handlerOf templates "save") with saveHandler in Es1, Es2.
  injection Es1 as <-. injection Es2 as <-.
  destruct (run_save_302 r2 _ title St) as [_ [_ ->]].
  cbn [store files setFiles logCall].
  split.
  - change ("data/" +:+ title +:+ ".txt") with (filename title).
    destruct (run_save_files r1 fs title) as [-> | ->];
      [reflexivity | apply insert_insert_eq].
  - eexists.
    rewrite (loadPage_present title _ (bytes (FormValue r2 "body")))
      by apply lookup_insert_eq.
    split; reflexivity.
Qed.


(** X9. The root path.  A request for / is answered, whatever its method
    and its query, with a 307 to /view/FrontPage, and makes no call to the
    store. *)
Theorem root_redirects_to_front_page (r : Request) (fs : FileSystem) :
  URL_Path r = "/" ->
  exists s,
    ServeHTTP templates r fs = Served s
    /\ status (resp s) = 307
    /\ sentHeader (resp s) !! "Location" = Some "/view/FrontPage"
    /\ store s = fs.
Proof.
  intros Ep.
  assert (E : ServeHTTP templates r fs = Served (run (redirFrontPage r) fs)).
  { unfold ServeHTTP, mux_redirect, mux_Handler. rewrite Ep.
    destruct (String.eqb (Method r) "CONNECT"); reflexivity. }
  rewrite E.
  rewrite (run_Redirect _ fs fs r "/view/FrontPage" StatusTemporaryRedirect)
    by reflexivity.
  eexists. split; [reflexivity|]. cbn [resp store].
  split; [apply Redirect_status|].
  split; [apply Redirect_Location | reflexivity].
Qed.

End Sequences.

(** ** Which files the server touches *)

Section MuxMembership.

Context {H : Type}.

Lemma fold_longer_In (l : list (string * H)) best e :
  fold_left longer l best = Some e -> best = Some e \/ In e l.
Proof.
  revert best. induction l as [|x l IH]; intros best; simpl.
  - now left.
  - intros F. apply IH in F as [F|F]; [|now right; right].
    unfold longer in F. destruct best as [b|].
    + destruct (Nat.ltb (String.length (fst b)) (String.length (fst x)));
        [injection F as <-; right; now left | now left].
    + injection F as <-. right. now left.
Qed.

(** The mux only ever picks a registered entry. *)
Lemma mux_match_In (entries : list (string * H)) path e :
  mux_match entries path = Some e -> In e entries.
Proof.
  unfold mux_match.
  destruct (find (fun e => String.eqb (fst e) path) entries) as [x|] eqn:F.
  - intros [= <-]. now apply find_some in F.
  - intros E. apply fold_longer_In in E as [E|E]; [discriminate|].
    now apply filter_In in E.
Qed.

End MuxMembership.

Lemma saveHandler_calls r title s :
  readOnly (store (snd (saveHandler r title s))) = readOnly (store s)
  /\ exists calls,
       trace (store (snd (saveHandler r title s))) = trace (store s) ++ calls
       /\ Forall (fun c => syscall_file c = filename title) calls.
Proof.
  unfold saveHandler.
  destruct (negb (String.eqb (Method r) MethodPost)).
  - rewrite onW_eq. cbn [snd store]. split; [reflexivity|].
    exists []. split; [now rewrite app_nil_r | constructor].
  - unfold bind. rewrite onFS_eq. unfold save, WriteFile. cbn [Title Body].
    destruct (readOnly (store s)) eqn:Ero;
      [|destruct (openFault (store s) (filename title))];
      cbn [fst snd]; rewrite onW_eq;
      cbn [snd store readOnly trace logCall setFiles];
      (split; [now rewrite ?Ero|]); eexists [_];
      (split; [reflexivity|]); repeat constructor.
Qed.

Lemma deleteHandler_calls r title s :
  readOnly (store (snd (deleteHandler r title s))) = readOnly (store s)
  /\ exists calls,
       trace (store (snd (deleteHandler r title s))) = trace (store s) ++ calls
       /\ Forall (fun c => syscall_file c = filename title) calls.
Proof.
  unfold deleteHandler.
  destruct (negb (String.eqb (Method r) MethodPost)).
  { rewrite onW_eq. cbn [snd store]. split; [reflexivity|].
    exists []. split; [now rewrite app_nil_r | constructor]. }
  unfold bind. rewrite onFS_loadPage.
  destruct (fst (loadPage title (store s))).
  2:{ rewrite onW_eq. cbn [snd store readOnly trace logCall].
      split; [reflexivity|]. eexists [_]. split; [reflexivity|].
      repeat constructor. }
  rewrite onFS_eq. unfold Remove.
  cbn [store resp files readOnly logCall].
  change ("data/" +:+ title +:+ ".txt") with (filename title).
  destruct (files (store s) !! filename title);
    [destruct (readOnly (store s)) eqn:Ero|];
    cbn [fst snd]; rewrite ?onW_eq; cbn [fst snd store resp ret];
    rewrite ?onW_eq; cbn [fst snd store resp readOnly trace logCall setFiles ret];
    (split; [now rewrite ?Ero|]); eexists [_; _];
    (split; [now rewrite <- app_assoc|]); repeat constructor.
Qed.

Section Confinement.

Variable templates : string -> Page -> list string * option string.

(** X10. Whatever the request, the calls a handler makes to the store all
    name one file, data/<title>.txt, where <title> is the alphanumeric
    title of the request path; every other file is left as it was.  A
    request whose path is not a valid route makes no call at all.  (So no
    request path can reach a file outside data/ or with another
    extension.) *)
Theorem store_calls_are_confined (r : Request) (fs : FileSystem) (s : Server) :
  ServeHTTP templates r fs = Served s ->
  readOnly (store s) = readOnly fs
  /\ exists calls,
       trace (store s) = trace fs ++ calls
       /\ ((calls = [] /\ files (store s) = files fs)
           \/ exists op title,
                ValidRoute (URL_Path r) op title
                /\ Forall (fun c => syscall_file c = "data/" +:+ title +:+ ".txt")
                          calls
                /\ forall name, name <> "data/" +:+ title +:+ ".txt" ->
                     files (store s) !! name = files fs !! name).
Proof.
  unfold ServeHTTP.
  destruct (mux_redirect (routes templates) r); [discriminate|].
  intros [= <-]. rewrite run_eq. cbn [store].
  assert (Quiet : forall m : ST ResponseWriter unit,
            readOnly (store (snd (onW m (mkServer newResponseWriter fs))))
            = readOnly fs
            /\ exists calls,
                 trace (store (snd (onW m (mkServer newResponseWriter fs))))
                 = trace fs ++ calls
                 /\ ((calls = []
                      /\ files (store (snd (onW m (mkServer newResponseWriter fs))))
                         = files fs)
                     \/ exists op title,
                          ValidRoute (URL_Path r) op title
                          /\ Forall (fun c => syscall_file c
                                              = "data/" +:+ title +:+ ".txt") calls
                          /\ forall name, name <> "data/" +:+ title +:+ ".txt" ->
                               files (store (snd (onW m (mkServer newResponseWriter fs))))
                               !! name = files fs !! name)).
  { intros m. rewrite onW_eq. cbn [snd store]. split; [reflexivity|].
    exists []. split; [now rewrite app_nil_r|]. left. now split. }
  assert (Wrapped : forall fn : Request -> string -> ST Server unit,
            (forall title s0,
               readOnly (store (snd (fn r title s0))) = readOnly (store s0)
               /\ (exists calls,
                     trace (store (snd (fn r title s0))) = trace (store s0) ++ calls
                     /\ Forall (fun c => syscall_file c = filename title) calls)
               /\ forall name, name <> filename title ->
                    files (store (snd (fn r title s0))) !! name
                    = files (store s0) !! name) ->
            readOnly (store (snd (makeHandler fn r (mkServer newResponseWriter fs))))
            = readOnly fs
            /\ exists calls,
                 trace (store (snd (makeHandler fn r (mkServer newResponseWriter fs))))
                 = trace fs ++ calls
                 /\ ((calls = []
                      /\ files (store (snd (makeHandler fn r
                                              (mkServer newResponseWriter fs))))
                         = files fs)
                     \/ exists op title,
                          ValidRoute (URL_Path r) op title
                          /\ Forall (fun c => syscall_file c
                                              = "data/" +:+ title +:+ ".txt") calls
                          /\ forall name, name <> "data/" +:+ title +:+ ".txt" ->
                               files (store (snd (makeHandler fn r
                                                    (mkServer newResponseWriter fs))))
                               !! name = files fs !! name)).
  { intros fn Hfn. unfold makeHandler.
    destruct (FindStringSubmatch (URL_Path r)) as [m|] eqn:E; [|apply Quiet].
    apply FindStringSubmatch_sound in E as [op [title [V ->]]].
    cbn [nth].
    destruct (Hfn title (mkServer newResponseWriter fs)) as [Ro [[calls [Tr Fa]] Fr]].
    split; [exact Ro|]. exists calls. split; [exact Tr|].
    right. exists op, title. split; [exact V|]. split; [exact Fa | exact Fr]. }
  unfold mux_Handler.
  destruct (mux_match (routes templates) (URL_Path r)) as [[pat h]|] eqn:M;
    [|apply Quiet].
  apply mux_match_In in M. unfold routes, patterns in M. simpl in M.
  destruct M as [M|[M|[M|[M|[M|[]]]]]]; injection M as _ <-.
  - apply Quiet.
  - apply Wrapped. intros title s0. rewrite viewHandler_store.
    cbn [readOnly trace files logCall]. split; [reflexivity|].
    split; [|reflexivity]. eexists [_]. split; [reflexivity|]. repeat constructor.
  - apply Wrapped. intros title s0. rewrite editHandler_store.
    cbn [readOnly trace files logCall]. split; [reflexivity|].
    split; [|reflexivity]. eexists [_]. split; [reflexivity|]. repeat constructor.
  - apply Wrapped. intros title s0.
    destruct (saveHandler_calls r title s0) as [Ro C].
    split; [exact Ro|]. split; [exact C|].
    intros name N. now apply saveHandler_files.
  - apply Wrapped. intros title s0.
    destruct (deleteHandler_calls r title s0) as [Ro C].
    split; [exact Ro|]. split; [exact C|].
    intros name N. now apply deleteHandler_files.
Qed.

End Confinement.

(** ** More on link expansion *)

Lemma interPageLink_matchAt_other b t :
  b <> "["%byte -> interPageLink_matchAt (b :: t) = None.
Proof.
  intros N. simpl. destruct (Byte.eqb b "["%byte) eqn:E; [|reflexivity].
  apply byte_eqb_eq in E. contradiction.
Qed.

Lemma span_app_sep t c s' :
  alnum c = false ->
  span alnum (t ++ c :: s') =
  (fst (span alnum t), snd (span alnum t) ++ c :: s').
Proof.
  intros Ec. induction t as [|b t IH]; simpl.
  - now rewrite Ec.
  - destruct (alnum b); [|reflexivity].
    rewrite IH. destruct (span alnum t); reflexivity.
Qed.

Lemma interPageLink_matchAt_app_sep b t c s' :
  alnum c = false -> c <> "]"%byte ->
  interPageLink_matchAt ((b :: t) ++ c :: s') =
  match interPageLink_matchAt (b :: t) with
  | Some (m, rest) => Some (m, rest ++ c :: s')
  | None => None
  end.
Proof.
  intros Ec Nc. simpl. destruct (Byte.eqb b "["%byte); [|reflexivity].
  rewrite span_app_sep by exact Ec.
  destruct (span alnum t) as [name r]. simpl.
  destruct r as [|d r']; simpl.
  - destruct (Byte.eqb c "]"%byte) eqn:E; [|reflexivity].
    apply byte_eqb_eq in E. contradiction.
  - destruct (Byte.eqb d "]"%byte); reflexivity.
Qed.

Lemma expandLinks_app_sep pre c s' :
  alnum c = false -> c <> "]"%byte ->
  expandLinks (pre ++ c :: s') = expandLinks pre ++ expandLinks (c :: s').
Proof.
  intros Ec Nc.
  remember (length pre) as n eqn:En.
  revert pre En. induction n as [n IH] using lt_wf_ind. intros pre En.
  destruct pre as [|b t]; [reflexivity|].
  unfold expandLinks in *.
  rewrite (ReplaceAllFunc_cons _ b t).
  change ((b :: t) ++ c :: s') with (b :: (t ++ c :: s')).
  rewrite ReplaceAllFunc_cons.
  change (b :: (t ++ c :: s')) with ((b :: t) ++ c :: s').
  rewrite interPageLink_matchAt_app_sep by assumption.
  destruct (interPageLink_matchAt (b :: t)) as [[m rest]|] eqn:E.
  - apply interPageLink_matchAt_shorter in E.
    rewrite (IH (length rest)); [now rewrite app_assoc | subst n; exact E | reflexivity].
  - simpl. f_equal. apply (IH (length t)); [subst n; simpl; lia | reflexivity].
Qed.

Lemma expandLinks_plain s :
  Forall (fun b => b <> "["%byte) s -> expandLinks s = s.
Proof.
  induction 1 as [|b t Hb _ IH]; [reflexivity|].
  unfold expandLinks in *.
  rewrite ReplaceAllFunc_cons, (interPageLink_matchAt_other b t Hb).
  now rewrite IH.
Qed.

(** X11. Link expansion is local.  Text without an opening bracket is
    displayed as it is, and a byte that is neither alphanumeric nor a
    bracket (a space, a line feed, any punctuation) separates the text
    into parts that are expanded on their own: no link runs across it. *)
Theorem expandLinks_is_local :
  (forall s, Forall (fun b => b <> "["%byte) s -> expandLinks s = s)
  /\ (forall a c b,
        alnum c = false -> c <> "["%byte -> c <> "]"%byte ->
        expandLinks (a ++ c :: b) = expandLinks a ++ c :: expandLinks b).
Proof.
  split; [exact expandLinks_plain|].
  intros a c b Ec No Nc.
  rewrite expandLinks_app_sep by assumption. f_equal.
  unfold expandLinks. rewrite ReplaceAllFunc_cons.
  now rewrite (interPageLink_matchAt_other c b No).
Qed.

Lemma alnum_not_open b : alnum b = true -> b <> "["%byte.
Proof. intros E ->. discriminate E. Qed.

Lemma Forall_alnum_not_open name :
  forallb alnum name = true -> Forall (fun b => b <> "["%byte) name.
Proof.
  induction name as [|b name IH]; simpl; intros E; constructor.
  - apply andb_prop in E as [E _]. now apply alnum_not_open.
  - apply andb_prop in E as [_ E]. now apply IH.
Qed.

(** An anchor contains no opening bracket and starts with a byte that is
    neither alphanumeric nor a closing bracket. *)
Lemma anchor_plain name :
  forallb alnum name = true ->
  Forall (fun b => b <> "["%byte) (bytes (anchor (gostring name)))
  /\ exists tl, bytes (anchor (gostring name)) = "<"%byte :: tl.
Proof.
  intros Hal. pose proof (Forall_alnum_not_open name Hal) as Hn.
  unfold anchor. rewrite !bytes_app, bytes_gostring. split.
  - repeat (apply Forall_app; split); try exact Hn;
      repeat constructor; discriminate.
  - eexists. reflexivity.
Qed.

Lemma no_token_nil : no_token [].
Proof. intros [pre [name [post [_ E]]]]. destruct pre; discriminate. Qed.

Lemma no_token_app_plain a y :
  Forall (fun b => b <> "["%byte) a -> no_token y -> no_token (a ++ y).
Proof.
  induction 1 as [|b t Hb _ IH]; intros Ny; [exact Ny|].
  simpl. apply no_token_cons_intro; [|now apply IH].
  now apply interPageLink_matchAt_other.
Qed.

(** The first byte of a non-empty expansion that starts at a byte which is
    neither alphanumeric nor a closing bracket is again such a byte. *)
Lemma expandLinks_head c r :
  alnum c = false -> c <> "]"%byte ->
  exists d tl,
    expandLinks (c :: r) = d :: tl /\ alnum d = false /\ d <> "]"%byte.
Proof.
  intros Ec Nc. unfold expandLinks. rewrite ReplaceAllFunc_cons.
  destruct (interPageLink_matchAt (c :: r)) as [[m rest]|] eqn:E.
  - apply interPageLink_matchAt_sound in E as [name [Hal [-> _]]].
    rewrite expandMatch_token.
    destruct (anchor_plain name Hal) as [_ [tl ->]].
    exists "<"%byte, (tl ++ ReplaceAllFunc expandMatch rest).
    split; [reflexivity|]. split; [reflexivity | discriminate].
  - eauto.
Qed.

Lemma expandLinks_no_new_token s : no_token (expandLinks s).
Proof.
  remember (length s) as n eqn:En.
  revert s En. induction n as [n IH] using lt_wf_ind. intros s En.
  destruct s as [|b t]; [apply no_token_nil|].
  assert (IHt : no_token (expandLinks t)).
  { apply (IH (length t)); [subst n; simpl; lia | reflexivity]. }
  unfold expandLinks. rewrite ReplaceAllFunc_cons.
  destruct (interPageLink_matchAt (b :: t)) as [[m rest]|] eqn:E.
  - pose proof (interPageLink_matchAt_shorter _ _ _ E) as Hlt.
    apply interPageLink_matchAt_sound in E as [name [Hal [-> _]]].
    rewrite expandMatch_token.
    apply no_token_app_plain; [apply (anchor_plain name Hal)|].
    apply (IH (length rest)); [subst n; exact Hlt | reflexivity].
  - fold (expandLinks t). apply no_token_cons_intro; [|exact IHt].
    destruct (Byte.eqb b "["%byte) eqn:Eb;
      [|apply interPageLink_matchAt_other; intros ->; discriminate Eb].
    apply byte_eqb_eq in Eb; subst b.
    simpl in E. destruct (span alnum t) as [name r] eqn:Es.
    apply span_spec in Es as [-> [Hal Hstop]].
    destruct r as [|c r'].
    + rewrite app_nil_r.
      rewrite (expandLinks_plain name (Forall_alnum_not_open name Hal)).
      simpl. rewrite <- (app_nil_r name) at 1.
      now rewrite (span_app_stop alnum name [] Hal I).
    + assert (Nc : c <> "]"%byte).
      { intros ->. discriminate E. }
      rewrite (expandLinks_app_sep name c r' Hstop Nc).
      rewrite (expandLinks_plain name (Forall_alnum_not_open name Hal)).
      destruct (expandLinks_head c r' Hstop Nc) as [d [tl [-> [Ed Nd]]]].
      simpl. rewrite (span_app_stop alnum name (d :: tl) Hal Ed).
      destruct (Byte.eqb d "]"%byte) eqn:E'; [|reflexivity].
      apply byte_eqb_eq in E'. contradiction.
Qed.

(** X12. The expansion of a body contains no token any more: the anchors
    bring no brackets, and the brackets that were left do not become a
    token by the replacement of their neighbours.  So expanding twice is
    expanding once. *)
Theorem expandLinks_idempotent (s : list byte) :
  no_token (expandLinks s)
  /\ expandLinks (expandLinks s) = expandLinks s.
Proof.
  split; [apply expandLinks_no_new_token|].
  apply expandLinks_no_token, expandLinks_no_new_token.
Qed.

(** ** The earlier version *)

(** X13. Expanding the links before the error check, as the earlier
    [loadPage] does, changes nothing: on every store it makes the same
    call, returns the same error when the read fails, and a page with the
    same title, body and displayed body when it succeeds. *)
Theorem earlier_loadPage_agrees (title : string) (fs : FileSystem) :
  snd (Earlier.loadPage title fs) = snd (loadPage title fs)
  /\ match fst (Earlier.loadPage title fs), fst (loadPage title fs) with
     | inl q, inl p =>
         Earlier.Title q = Title p /\ Earlier.Body q = Body p
         /\ Earlier.DispBody q = DispBody p
         /\ Earlier.FromSave q = false /\ FromSave p = false
     | inr e', inr e => e' = e
     | _, _ => False
     end.
Proof.
  unfold Earlier.loadPage, loadPage, bind, ReadFile.
  destruct (files fs !! filename title); cbn [fst snd ret];
    repeat split; reflexivity.
Qed.

Section EarlierView.

Variable templates : string -> Page -> list string * option string.
Variable earlierTemplates :
  string -> Earlier.Page -> list string * option string.

(** X14. The earlier [viewHandler] sets the banner flag before it looks at
    the error of the load.  For a missing page it therefore panics on the
    nil page when the query carries from_save=true, with nothing written to
    the response, and redirects to the edit form only otherwise; the
    handler of wiki.go checks the error first and redirects in both cases.
    The earlier handler panics in no other case. *)
Theorem earlier_view_panics_on_missing_page (r : Request) (title : string) (s : Server) :
  ValidTitle title ->
  (fst (Earlier.viewHandler earlierTemplates r title s)
   = Earlier.Panicked Earlier.nilDereference
   <-> files (store s) !! filename title = None
       /\ Values_Get (URL_Query r) "from_save" = "true")
  /\ (fst (Earlier.viewHandler earlierTemplates r title s) = Earlier.Returned
      \/ fst (Earlier.viewHandler earlierTemplates r title s)
         = Earlier.Panicked Earlier.nilDereference)
  /\ (files (store s) !! filename title = None ->
      snd (viewHandler templates r title s)
      = mkServer (snd (http_Redirect r ("/edit/" +:+ title) StatusFound (resp s)))
                 (logCall (SysReadFile (filename title)) (store s))
      /\ snd (Earlier.viewHandler earlierTemplates r title s)
         = if String.eqb (Values_Get (URL_Query r) "from_save") "true"
           then mkServer (resp s) (logCall (SysReadFile (filename title)) (store s))
           else snd (viewHandler templates r title s)).
Proof.
  intros _.
  assert (L : onFS (Earlier.loadPage title) s
              = (fst (Earlier.loadPage title (store s)),
                 mkServer (resp s) (logCall (SysReadFile (filename title)) (store s)))).
  { rewrite onFS_eq. replace (snd (Earlier.loadPage title (store s))) with (snd (loadPage title (store s)))
      by (unfold Earlier.loadPage, loadPage, bind, ReadFile;
          now destruct (files (store s) !! filename title)).
    now rewrite loadPage_store. }
  assert (W : snd (viewHandler templates r title s)
              = match files (store s) !! filename title with
                | None =>
                    mkServer
                      (snd (http_Redirect r ("/edit/" +:+ title) StatusFound (resp s)))
                      (logCall (SysReadFile (filename title)) (store s))
                | Some _ => snd (viewHandler templates r title s)
                end).
  { destruct (files (store s) !! filename title) eqn:E; [reflexivity|].
    rewrite (viewHandler_absent templates r title s E). now rewrite onW_eq. }
  unfold Earlier.viewHandler, bind. rewrite L.
  unfold Earlier.loadPage, bind, ReadFile.
  destruct (files (store s) !! filename title) as [data|] eqn:E;
    cbn [fst snd ret];
    destruct (String.eqb (Values_Get (URL_Query r) "from_save") "true") eqn:B.
  - split; [|split].
    + destruct (Earlier.renderTemplate _ _ _ _) as [[] s']. cbn [fst ret].
      split; [discriminate | intros [X _]; discriminate X].
    + left. destruct (Earlier.renderTemplate _ _ _ _) as [[] s']. reflexivity.
    + discriminate.
  - split; [|split].
    + destruct (Earlier.renderTemplate _ _ _ _) as [[] s']. cbn [fst ret].
      split; [discriminate | intros [X _]; discriminate X].
    + left. destruct (Earlier.renderTemplate _ _ _ _) as [[] s']. reflexivity.
    + discriminate.
  - apply String.eqb_eq in B. split; [|split].
    + split; [intros _; now split | reflexivity].
    + now right.
    + intros _. split; [exact W | reflexivity].
  - split; [|split].
    + rewrite onW_eq. cbn [fst ret]. split; [discriminate|].
      intros [_ X]. apply String.eqb_eq in X. congruence.
    + left. now rewrite onW_eq.
    + intros _. split; [exact W|]. rewrite W. now rewrite onW_eq.
Qed.

End EarlierView.

(** ** Concrete instances of the further properties *)

Lemma renderTemplate_outcomes_witness :
  failingTemplates ("view" +:+ ".html") samplePage
  = (["<h1>Foo</h1>"], Some "template: no such field")
  /\ status (resp (run (renderTemplate failingTemplates "view" samplePage) sampleStore))
     = 200
  /\ errorLog (resp (run (renderTemplate failingTemplates "view" samplePage)
                       sampleStore))
     = ["http: superfluous response.WriteHeader call"].
Proof.
  split; [reflexivity|].
  destruct (proj2 (renderTemplate_outcomes failingTemplates "view" samplePage
                     sampleStore ["<h1>Foo</h1>"] (Some "template: no such field")
                     eq_refl)) as [St [_ Lg]].
  split; [exact St | exact Lg].
Defined.

Lemma view_renders_stored_page_witness :
  ValidTitle "Foo"
  /\ files sampleStore !! "data/Foo.txt" = Some (bytes "Hello [Other] []")
  /\ exists p,
       ServeHTTP sampleTemplates (getViewAfterSave "Foo") sampleStore
       = Served (run (renderTemplate sampleTemplates "view" p)
                   (logCall (SysReadFile "data/Foo.txt") sampleStore))
       /\ Body p = bytes "Hello [Other] []"
       /\ (FromSave p = true
           <-> Values_Get (URL_Query (getViewAfterSave "Foo")) "from_save" = "true").
Proof.
  split; [exact ValidTitle_Foo|]. split; [reflexivity|].
  destruct (view_renders_stored_page sampleTemplates (getViewAfterSave "Foo")
              sampleStore "Foo" (bytes "Hello [Other] []") ValidTitle_Foo
              eq_refl eq_refl) as [p [E [_ [B [_ [F _]]]]]].
  exists p. split; [exact E|]. split; [exact B | exact F].
Defined.

Lemma edit_renders_page_or_blank_witness :
  ValidTitle "Missing"
  /\ exists p,
       ServeHTTP sampleTemplates (mkRequest "GET" "/edit/Missing" [] []) sampleStore
       = Served (run (renderTemplate sampleTemplates "edit" p)
                   (logCall (SysReadFile "data/Missing.txt") sampleStore))
       /\ Title p = "Missing".
Proof.
  split; [exact ValidTitle_Missing|].
  destruct (edit_renders_page_or_blank sampleTemplates
              (mkRequest "GET" "/edit/Missing" [] []) sampleStore "Missing"
              ValidTitle_Missing eq_refl) as [p [E [T _]]].
  exists p. split; [exact E | exact T].
Defined.

Lemma save_failure_is_reported_witness :
  Method (postSave "Foo" "x") = "POST"
  /\ ValidTitle "Foo"
  /\ readOnly sampleReadOnlyStore = true
  /\ exists s,
       ServeHTTP sampleTemplates (postSave "Foo" "x") sampleReadOnlyStore = Served s
       /\ status (resp s) = 500
       /\ header (resp s) !! "Location" = None.
Proof.
  split; [reflexivity|]. split; [exact ValidTitle_Foo|]. split; [reflexivity|].
  destruct (save_failure_is_reported sampleTemplates (postSave "Foo" "x")
              sampleReadOnlyStore "Foo" eq_refl ValidTitle_Foo eq_refl eq_refl)
    as [s [E [St [_ [Loc _]]]]].
  exists s. split; [exact E|]. split; [exact St | exact Loc].
Defined.

Lemma save_error_is_500_witness :
  Method (postSave "Bar" "x") = "POST"
  /\ ValidTitle "Bar"
  /\ save (mkPage "Bar" (bytes "x") "" false false) sampleUnwritableStore
     = (Some (PathError "open" "data/Bar.txt" EACCES),
        logCall (SysWriteFile "data/Bar.txt" (bytes "x") 384) sampleUnwritableStore)
  /\ exists s,
       ServeHTTP sampleTemplates (postSave "Bar" "x") sampleUnwritableStore = Served s
       /\ status (resp s) = 500
       /\ body (resp s) = "open data/Bar.txt: permission denied" +:+ nl
       /\ files (store s) = files sampleUnwritableStore.
Proof.
  split; [reflexivity|]. split; [exact ValidTitle_Bar|]. split; [reflexivity|].
  destruct (save_error_is_500 sampleTemplates (postSave "Bar" "x")
              sampleUnwritableStore _ "Bar" _ eq_refl ValidTitle_Bar eq_refl eq_refl)
    as [s [E [St [B [_ [_ [F _]]]]]]].
  exists s. split; [exact E|]. split; [exact St|]. split; [exact B | exact F].
Defined.

Lemma delete_rejects_other_methods_witness :
  Method (mkRequest "GET" "/delete/Foo" [] []) <> "POST"
  /\ ValidTitle "Foo"
  /\ exists s,
       ServeHTTP sampleTemplates (mkRequest "GET" "/delete/Foo" [] []) sampleStore
       = Served s
       /\ status (resp s) = 400
       /\ store s = sampleStore.
Proof.
  assert (N : Method (mkRequest "GET" "/delete/Foo" [] []) <> "POST") by discriminate.
  split; [exact N|]. split; [exact ValidTitle_Foo|].
  destruct (delete_rejects_other_methods sampleTemplates
              (mkRequest "GET" "/delete/Foo" [] []) sampleStore "Foo" N
              ValidTitle_Foo eq_refl) as [s [E [St [_ Es]]]].
  exists s. split; [exact E|]. split; [exact St | exact Es].
Defined.

Lemma save_then_view_shows_saved_text_witness :
  ValidTitle "Bar"
  /\ files sampleStore !! "data/Bar.txt" = None
  /\ ServeHTTP sampleTemplates (postSave "Bar" "Hello [Foo]") sampleStore
     = Served (run (saveHandler (postSave "Bar" "Hello [Foo]") "Bar") sampleStore)
  /\ status (resp (run (saveHandler (postSave "Bar" "Hello [Foo]") "Bar") sampleStore))
     = 302
  /\ sentHeader (resp (run (saveHandler (postSave "Bar" "Hello [Foo]") "Bar")
                         sampleStore)) !! "Location"
     = Some "/view/Bar?from_save=true"
  /\ exists p,
       ServeHTTP sampleTemplates (getViewAfterSave "Bar")
         (store (run (saveHandler (postSave "Bar" "Hello [Foo]") "Bar") sampleStore))
       = Served (run (renderTemplate sampleTemplates "view" p)
                   (logCall (SysReadFile "data/Bar.txt")
                      (store (run (saveHandler (postSave "Bar" "Hello [Foo]") "Bar")
                                sampleStore))))
       /\ Body p = bytes "Hello [Foo]"
       /\ FromSave p = true.
Proof.
  assert (E : ServeHTTP sampleTemplates (postSave "Bar" "Hello [Foo]") sampleStore
              = Served (run (saveHandler (postSave "Bar" "Hello [Foo]") "Bar")
                          sampleStore))
    by (vm_compute; reflexivity).
  assert (St : status (resp (run (saveHandler (postSave "Bar" "Hello [Foo]") "Bar")
                               sampleStore)) = 302)
    by (vm_compute; reflexivity).
  split; [exact ValidTitle_Bar|]. split; [vm_compute; reflexivity|].
  split; [exact E|]. split; [exact St|].
  destruct (save_then_view_shows_saved_text sampleTemplates
              (postSave "Bar" "Hello [Foo]") (getViewAfterSave "Bar") sampleStore
              "Bar" _ ValidTitle_Bar eq_refl eq_refl E St)
    as [_ [_ [Loc [_ [_ [p [E2 [_ [B [_ F]]]]]]]]]].
  split; [exact Loc|].
  exists p. split; [exact E2|]. split; [exact B | exact (F eq_refl)].
Defined.

Lemma last_save_wins_witness :
  ValidTitle "Foo"
  /\ files sampleStore !! "data/Foo.txt" = Some (bytes "Hello [Other] []")
  /\ ServeHTTP sampleTemplates (postSave "Foo" "first") sampleStore
     = Served (run (saveHandler (postSave "Foo" "first") "Foo") sampleStore)
  /\ ServeHTTP sampleTemplates (postSave "Foo" "second")
       (store (run (saveHandler (postSave "Foo" "first") "Foo") sampleStore))
     = Served (run (saveHandler (postSave "Foo" "second") "Foo")
                 (store (run (saveHandler (postSave "Foo" "first") "Foo") sampleStore)))
  /\ status (resp (run (saveHandler (postSave "Foo" "second") "Foo")
                     (store (run (saveHandler (postSave "Foo" "first") "Foo")
                               sampleStore)))) = 302
  /\ exists p,
       fst (loadPage "Foo"
              (store (run (saveHandler (postSave "Foo" "second") "Foo")
                        (store (run (saveHandler (postSave "Foo" "first") "Foo")
                                  sampleStore))))) = inl p
       /\ Body p = bytes "second".
Proof.
  assert (E1 : ServeHTTP sampleTemplates (postSave "Foo" "first") sampleStore
               = Served (run (saveHandler (postSave "Foo" "first") "Foo") sampleStore))
    by (vm_compute; reflexivity).
  assert (E2 : ServeHTTP sampleTemplates (postSave "Foo" "second")
                 (store (run (saveHandler (postSave "Foo" "first") "Foo") sampleStore))
               = Served (run (saveHandler (postSave "Foo" "second") "Foo")
                           (store (run (saveHandler (postSave "Foo" "first") "Foo")
                                     sampleStore))))
    by (vm_compute; reflexivity).
  assert (St : status (resp (run (saveHandler (postSave "Foo" "second") "Foo")
                               (store (run (saveHandler (postSave "Foo" "first") "Foo")
                                         sampleStore)))) = 302)
    by (vm_compute; reflexivity).
  split; [exact ValidTitle_Foo|]. split; [vm_compute; reflexivity|].
  split; [exact E1|]. split; [exact E2|]. split; [exact St|].
  exact (proj2 (last_save_wins sampleTemplates (postSave "Foo" "first")
                  (postSave "Foo" "second") sampleStore "Foo" _ _
                  ValidTitle_Foo eq_refl eq_refl E1 E2 St)).
Defined.


Lemma root_redirects_to_front_page_witness :
  URL_Path (mkRequest "POST" "/" [] []) = "/"
  /\ exists s,
       ServeHTTP sampleTemplates (mkRequest "POST" "/" [] []) sampleStore = Served s
       /\ status (resp s) = 307
       /\ store s = sampleStore.
Proof.
  split; [reflexivity|].
  destruct (root_redirects_to_front_page sampleTemplates
              (mkRequest "POST" "/" [] []) sampleStore eq_refl)
    as [s [E [St [_ Es]]]].
  exists s. split; [exact E|]. split; [exact St | exact Es].
Defined.

Lemma store_calls_are_confined_witness :
  ServeHTTP sampleTemplates (postDelete "Foo") sampleStore
  = Served (run (deleteHandler (postDelete "Foo") "Foo") sampleStore)
  /\ readOnly (store (run (deleteHandler (postDelete "Foo") "Foo") sampleStore))
     = readOnly sampleStore.
Proof.
  assert (E : ServeHTTP sampleTemplates (postDelete "Foo") sampleStore
              = Served (run (deleteHandler (postDelete "Foo") "Foo") sampleStore))
    by (vm_compute; reflexivity).
  split; [exact E|].
  exact (proj1 (store_calls_are_confined sampleTemplates (postDelete "Foo")
                  sampleStore _ E)).
Defined.

(** ** The first version *)

Lemma sliceFrom_None n s :
  First.sliceFrom n s = None <-> String.length s < n.
Proof.
  revert s. induction n as [|n IH]; intros s; simpl.
  - split; [discriminate | lia].
  - destruct s as [|c s]; simpl; [split; [lia | reflexivity]|].
    rewrite IH. lia.
Qed.

Lemma First_save_ok p fs fs1 :
  First.save p fs = (None, fs1) ->
  fs1 = setFiles (<[First.Title p +:+ ".txt" := First.Body p]> (files fs))
          (logCall (SysWriteFile (First.Title p +:+ ".txt") (First.Body p) 384) fs).
Proof.
  unfold First.save, WriteFile. destruct (readOnly fs); [discriminate|].
  destruct (openFault fs (First.Title p +:+ ".txt")); [discriminate|].
  now intros [= <-].
Qed.

Section FirstVersion.

Variable ParseForm : Request -> option string.

(** X15. In the first version a save is not tied to a method.  Any request
    for /save/<t> whose form parses, a GET with the body in its query as
    much as a POST, calls [save] with the body value; when that call
    returns no error, the value is in <t>.txt, next to the program, and the
    answer is a 200 with the confirmation followed by the marker of [fmt]
    for the unused title argument; a view of /view/<t> then answers 200
    with the title and the saved text, as it is, between the tags. *)
Theorem first_save_then_view (r1 r2 : Request) (fs : FileSystem) (t : string) :
  ValidTitle t ->
  URL_Path r1 = "/save/" +:+ t ->
  ParseForm r1 = None ->
  fst (First.save
         (First.mkPage t (bytes (Values_Get (PostForm r1 ++ URL_Query r1) "body")))
         fs) = None ->
  URL_Path r2 = "/view/" +:+ t ->
  exists s1 s2,
    First.saveHandler ParseForm r1 (mkServer newResponseWriter fs)
    = (First.Returned, s1)
    /\ status (resp s1) = 200
    /\ body (resp s1) = "<h1>Post saved!</h1>%!(EXTRA string=" +:+ t +:+ ")"
    /\ files (store s1)
       = <[t +:+ ".txt" := bytes (Values_Get (PostForm r1 ++ URL_Query r1) "body")]>
           (files fs)
    /\ First.viewHandler r2 (mkServer newResponseWriter (store s1))
       = (First.Returned, s2)
    /\ status (resp s2) = 200
    /\ body (resp s2)
       = "<h1>" +:+ t +:+ "</h1><div>"
         +:+ Values_Get (PostForm r1 ++ URL_Query r1) "body" +:+ "</div>"
    /\ files (store s2) = files (store s1).
Proof.
  intros _ Ep1 Pf Ew Ep2.
  unfold First.saveHandler. rewrite Ep1, Pf.
  change (First.sliceFrom (String.length "/view/") ("/save/" +:+ t)) with (Some t).
  cbv iota beta zeta. unfold bind. rewrite onFS_eq. cbn [store resp].
  destruct (First.save
              (First.mkPage t (bytes (Values_Get (PostForm r1 ++ URL_Query r1) "body")))
              fs) as [e fs1] eqn:E.
  cbn [fst] in Ew. subst e. apply First_save_ok in E as ->.
  cbn [First.Title First.Body fst snd]. rewrite onW_eq. cbn [fst snd resp store ret].
  rewrite Write_fresh by reflexivity.
  eexists. eexists. split; [reflexivity|]. cbn [resp store snd].
  split; [reflexivity|]. split; [reflexivity|]. split; [reflexivity|].
  unfold First.viewHandler. rewrite Ep2.
  change (First.sliceFrom (String.length "/view/") ("/view/" +:+ t)) with (Some t).
  cbv iota beta. unfold bind. rewrite onFS_eq.
  unfold First.loadPage, bind, ReadFile. cbn [store resp files setFiles logCall].
  rewrite lookup_insert_eq. cbn [fst snd ret]. rewrite onW_eq.
  cbn [fst snd resp store ret First.Title First.Body].
  rewrite Write_fresh by reflexivity. rewrite gostring_bytes.
  split; [reflexivity|]. cbn [resp store snd].
  repeat split; reflexivity.
Qed.

(** X16. The first view handler on its edges.  For a page that does not
    exist it neither redirects nor answers with an error status: it
    answers 200 with a page that shows the error of the read, and the one
    call to the store is that read.  On a path shorter than /view/ the
    slice expression panics before anything is read or written. *)
Theorem first_view_edges (r : Request) (fs : FileSystem) :
  (forall t,
     ValidTitle t ->
     URL_Path r = "/view/" +:+ t ->
     files fs !! (t +:+ ".txt") = None ->
     exists s,
       First.viewHandler r (mkServer newResponseWriter fs) = (First.Returned, s)
       /\ status (resp s) = 200
       /\ body (resp s)
          = "<h1>An error occurred while retrieving: " +:+ t +:+ "</h1><div>open "
            +:+ t +:+ ".txt: no such file or directory</div>"
       /\ header (resp s) !! "Location" = None
       /\ store s = logCall (SysReadFile (t +:+ ".txt")) fs)
  /\ (String.length (URL_Path r) < 6 ->
      First.viewHandler r (mkServer newResponseWriter fs)
      = (First.Panicked First.sliceOutOfRange, mkServer newResponseWriter fs)).
Proof.
  split.
  - intros t _ Ep Ef. unfold First.viewHandler. rewrite Ep.
    change (First.sliceFrom (String.length "/view/") ("/view/" +:+ t)) with (Some t).
    cbv iota beta. unfold bind. rewrite onFS_eq.
    unfold First.loadPage, bind, ReadFile. cbn [store resp]. rewrite Ef.
    cbn [fst snd ret]. rewrite onW_eq. cbn [fst snd resp store ret].
    rewrite Write_fresh by reflexivity.
    eexists. split; [reflexivity|]. cbn [resp store snd].
    split; [reflexivity|]. split.
    { cbn [body newResponseWriter]. unfold Error. cbn [Op Path Err errno_Error].
      simpl. now rewrite !append_assoc. }
    split; reflexivity.
  - intros Hl. unfold First.viewHandler.
    change (String.length "/view/") with 6.
    apply sliceFrom_None in Hl. rewrite Hl. reflexivity.
Qed.

End FirstVersion.

Lemma first_save_then_view_witness :
  ValidTitle "Bar"
  /\ files sampleStore !! "Bar.txt" = None
  /\ fst (First.save (First.mkPage "Bar" (bytes "<b>x</b>")) sampleStore) = None
  /\ exists s1 s2,
       First.saveHandler (fun _ => None)
         (mkRequest "GET" "/save/Bar" [("body", "<b>x</b>")] [])
         (mkServer newResponseWriter sampleStore) = (First.Returned, s1)
       /\ files (store s1) !! "Bar.txt" = Some (bytes "<b>x</b>")
       /\ First.viewHandler (mkRequest "GET" "/view/Bar" [] [])
            (mkServer newResponseWriter (store s1)) = (First.Returned, s2)
       /\ body (resp s2) = "<h1>Bar</h1><div><b>x</b></div>".
Proof.
  split; [exact ValidTitle_Bar|]. split; [vm_compute; reflexivity|].
  split; [reflexivity|].
  destruct (first_save_then_view (fun _ => None)
              (mkRequest "GET" "/save/Bar" [("body", "<b>x</b>")] [])
              (mkRequest "GET" "/view/Bar" [] []) sampleStore "Bar"
              ValidTitle_Bar eq_refl eq_refl eq_refl eq_refl)
    as [s1 [s2 [E1 [_ [_ [F [E2 [_ [B _]]]]]]]]].
  exists s1, s2. split; [exact E1|]. split.
  - rewrite F. apply lookup_insert_eq.
  - split; [exact E2 | exact B].
Defined.

Lemma earlier_view_panics_on_missing_page_witness :
  ValidTitle "Missing"
  /\ fst (Earlier.viewHandler (fun _ _ => ([], None)) (getViewAfterSave "Missing")
            "Missing" (mkServer newResponseWriter sampleStore))
     = Earlier.Panicked Earlier.nilDereference.
Proof.
  split; [exact ValidTitle_Missing|].
  apply (proj1 (earlier_view_panics_on_missing_page sampleTemplates
                  (fun _ _ => ([], None)) (getViewAfterSave "Missing") "Missing"
                  (mkServer newResponseWriter sampleStore) ValidTitle_Missing)).
  split; reflexivity.
Defined.

Lemma first_view_edges_witness :
  ValidTitle "Missing"
  /\ files sampleStore !! "Missing.txt" = None
  /\ exists s,
       First.viewHandler (mkRequest "GET" "/view/Missing" [] [])
         (mkServer newResponseWriter sampleStore) = (First.Returned, s)
       /\ status (resp s) = 200.
Proof.
  split; [exact ValidTitle_Missing|]. split; [reflexivity|].
  destruct (proj1 (first_view_edges (mkRequest "GET" "/view/Missing" [] [])
                     sampleStore) "Missing" ValidTitle_Missing eq_refl eq_refl)
    as [s [E [St _]]].
  exists s. split; [exact E | exact St].
Defined.
